(** * lbry/stream/stream_manager.py: StreamManager

    A shallow embedding of [StreamManager] and of [path_or_none].  Python
    objects that the manager shares and mutates (the [ManagedStream]s) live in
    an object store and are named by references; dictionaries are [gmap]s;
    the body of every method is a computation in a state-and-exception monad
    over the manager and its collaborators.

    Conventions.
    - A Python [str] is a Rocq [string] holding the UTF-8 encoding of the
      text; [bytes.decode()] therefore checks that the bytes are well-formed
      UTF-8 and hands them back.  Emptiness and equality of texts are the
      emptiness and equality of their encodings.
    - Collaborators whose code is outside this file (blob manager, storage,
      descriptor recovery, the streams' own coroutines) are given by their
      answers, in [Collaborators], and by the log of the calls made to them.
    - [asyncio.gather] runs its awaitables in the order they were given. *)

From stdpp Require Import gmap strings list fin_maps.
From Stdlib Require Import ZArith NArith Ascii String.

Open Scope string_scope.

(** ** Exceptions *)

Inductive exn : Type :=
| TypeError (msg : string)
| NameError (name : string)
| KeyError (key : string)
| IndexError (msg : string)
| ValueError (msg : string)
| BinasciiError (msg : string)
| UnicodeDecodeError
| InvalidStreamDescriptorError (msg : string)
| InvalidReference.

Inductive result (A : Type) : Type :=
| Ok (a : A)
| Raise (e : exn).

Arguments Ok {A} a.
Arguments Raise {A} e.

Definition is_ok {A} (r : result A) : bool :=
  match r with Ok _ => true | Raise _ => false end.

(** ** binascii.unhexlify and bytes.decode *)

Module Hex.

Definition digit (c : ascii) : option N :=
  let n := N_of_ascii c in
  if (48 <=? n)%N && (n <=? 57)%N then Some (n - 48)%N
  else if (97 <=? n)%N && (n <=? 102)%N then Some (n - 87)%N
  else if (65 <=? n)%N && (n <=? 70)%N then Some (n - 55)%N
  else None.

Definition is_ascii (c : ascii) : bool := (N_of_ascii c <? 128)%N.

Fixpoint all_ascii (s : string) : bool :=
  match s with
  | EmptyString => true
  | String c s' => is_ascii c && all_ascii s'
  end.

(** Pairs of hexadecimal digits, most significant first. *)
Fixpoint pairs (s : string) : option (list N) :=
  match s with
  | EmptyString => Some []
  | String _ EmptyString => None
  | String hi (String lo s') =>
      match digit hi, digit lo, pairs s' with
      | Some h, Some l, Some bs => Some ((16 * h + l)%N :: bs)
      | _, _, _ => None
      end
  end.

(** [binascii.unhexlify(s)] for a [str] argument. *)
Definition unhexlify (s : string) : result (list N) :=
  if negb (all_ascii s) then
    Raise (ValueError "string argument should contain only ASCII characters")
  else if Nat.odd (String.length s) then
    Raise (BinasciiError "Odd-length string")
  else match pairs s with
       | Some bs => Ok bs
       | None => Raise (BinasciiError "Non-hexadecimal digit found")
       end.

End Hex.

Module Utf8.

Definition between (lo hi b : N) : bool := (lo <=? b)%N && (b <=? hi)%N.
Definition cont (b : N) : bool := between 128 191 b.

(** Well-formed byte sequences of UTF-8 (strict: no overlong forms, no
    surrogates, nothing above U+10FFFF), as [bytes.decode()] accepts. *)
Fixpoint valid (bs : list N) : bool :=
  match bs with
  | [] => true
  | b0 :: r0 =>
      if (b0 <? 128)%N then valid r0
      else match r0 with
      | [] => false
      | b1 :: r1 =>
          if between 194 223 b0 then cont b1 && valid r1
          else match r1 with
          | [] => false
          | b2 :: r2 =>
              if (b0 =? 224)%N then between 160 191 b1 && cont b2 && valid r2
              else if between 225 236 b0 then cont b1 && cont b2 && valid r2
              else if (b0 =? 237)%N then between 128 159 b1 && cont b2 && valid r2
              else if between 238 239 b0 then cont b1 && cont b2 && valid r2
              else match r2 with
              | [] => false
              | b3 :: r3 =>
                  if (b0 =? 240)%N then
                    between 144 191 b1 && cont b2 && cont b3 && valid r3
                  else if between 241 243 b0 then
                    cont b1 && cont b2 && cont b3 && valid r3
                  else if (b0 =? 244)%N then
                    between 128 143 b1 && cont b2 && cont b3 && valid r3
                  else false
              end
          end
      end
  end.

Definition text_of_bytes (bs : list N) : string :=
  string_of_list_ascii (map ascii_of_N bs).

(** [bs.decode()] with the default codec. *)
Definition decode (bs : list N) : result string :=
  if valid bs then Ok (text_of_bytes bs) else Raise UnicodeDecodeError.

End Utf8.

(** Truth value of a [str]. *)
Definition str_truthy (s : string) : bool :=
  match s with EmptyString => false | String _ _ => true end.

(** Truth value of an [Optional[str]]. *)
Definition opt_str_truthy (p : option string) : bool :=
  match p with None => false | Some s => str_truthy s end.

(** [path_or_none], lines 26-29. *)
Definition path_or_none (p : option string) : result (option string) :=
  if negb (opt_str_truthy p) then Ok None
  else match p with
     | None => Ok None
     | Some s =>
         match Hex.unhexlify s with
         | Raise e => Raise e
         | Ok bs =>
             match Utf8.decode bs with
             | Raise e => Raise e
             | Ok t => Ok (Some t)
             end
         end
     end.

(** ** Data model *)

(** Opaque values of the wallet and claim layers. *)
Record Transaction : Type := { txid : string }.
Record StoredContentClaim : Type := { outpoint : string; claim_id : string }.
Record Node : Type := { node_id : string }.
Record Request : Type := { request_path : string }.

(** The dictionary returned by [storage.get_content_claim]; ['value'] is the
  only key the manager reads. *)
Record ClaimInfo : Type := { info : StoredContentClaim; value : string }.

(** Python values that travel as positional arguments; [PObject] stands for
  a module, class or function bound at module level. *)
Inductive pyval : Type :=
| PNone
| PBool (b : bool)
| PInt (z : Z)
| PStr (s : string)
| PClaim (c : StoredContentClaim)
| PTx (t : Transaction)
| PObject (name : string).

Definition of_opt {A} (inj : A → pyval) (o : option A) : pyval :=
  match o with None => PNone | Some a => inj a end.

Module BlobInfo.
(** One entry of a descriptor; the terminator has no hash. *)
Record t : Type := {
  blob_num : Z;
  length : Z;
  iv : string;
  blob_hash : option string
}.
End BlobInfo.

Module StreamDescriptor.
Record t : Type := {
  sd_hash : string;
  stream_hash : string;
  stream_name : string;
  suggested_file_name : string;
  key : string;
  blobs : list BlobInfo.t
}.
End StreamDescriptor.

Module ManagedStream.
Record t : Type := {
  sd_hash : string;
  download_directory : pyval;
  file_name : pyval;
  status : pyval;
  stream_claim_info : pyval;
  content_fee : pyval;
  rowid : pyval;
  descriptor : StreamDescriptor.t;
  added_on : pyval;
  fully_reflected : bool
}.

(** The [stream_hash] property reads the descriptor. *)
Definition stream_hash (s : t) : string :=
  StreamDescriptor.stream_hash (descriptor s).

Definition set_fully_reflected (s : t) : t :=
  {| sd_hash := sd_hash s; download_directory := download_directory s;
     file_name := file_name s; status := status s;
     stream_claim_info := stream_claim_info s; content_fee := content_fee s;
     rowid := rowid s; descriptor := descriptor s; added_on := added_on s;
     fully_reflected := true |}.

(** Modelled from the spec: [set_claim] is defined outside this file; it
    "applies" the claim info to the stream, here by storing the claim the
    info carries. *)
Definition set_claim (ci : ClaimInfo) (claim : string) (s : t) : t :=
  {| sd_hash := sd_hash s; download_directory := download_directory s;
     file_name := file_name s; status := status s;
     stream_claim_info := PClaim (info ci); content_fee := content_fee s;
     rowid := rowid s; descriptor := descriptor s; added_on := added_on s;
     fully_reflected := fully_reflected s |}.
End ManagedStream.

Module FileInfo.
(** A row of [storage.get_all_lbry_files()].  [file_name],
    [download_directory], [stream_name] and [suggested_file_name] are
    stored hex-encoded. *)
Record t : Type := {
  rowid : Z;
  sd_hash : string;
  stream_hash : string;
  file_name : option string;
  download_directory : option string;
  status : string;
  saved_file : bool;
  claim : option StoredContentClaim;
  content_fee : option Transaction;
  added_on : option Z;
  fully_reflected : bool;
  stream_name : string;
  suggested_file_name : string;
  key : string
}.
End FileInfo.

Module Config.
Record t : Type := {
  reflect_streams : bool;
  reflector_servers : list (string * Z);
  concurrent_reflector_uploads : Z;
  download_dir : string
}.
End Config.

(** References to [ManagedStream] objects and to [asyncio.Task]s. *)
Definition ref : Type := nat.
Definition task_id : Type := nat.

(** The handle [blob_manager.get_blob(h)] returns. *)
Record Blob : Type := { of_hash : string }.

Definition restore_entry : Type :=
  (StreamDescriptor.t * Blob * option Transaction)%type.

(** Coroutines the manager wraps into tasks. *)
Inductive coroutine : Type :=
| upload_to_reflector (stream : ref) (server : string) (port : Z)
| load_stream (rowid sd_hash file_name download_directory status claim
               content_fee added_on : pyval)
| gather_save_file (entries : list (ref * string * string)) (node : option Node).

(** The done-callback [reflect_stream] attaches: it captures the stream. *)
Inductive done_callback : Type :=
| pop_running_upload (stream : ref).

Module Task.
Record t : Type := {
    coro : coroutine;
    done_callbacks : list done_callback;
    cancel_requested : bool;
    exception : option exn;
    done : bool
}.
End Task.

(** Calls made to collaborators, oldest first. *)
Inductive call : Type :=
| log_warning (sd_hash : pyval) (err : string)
| update_manually_removed_files_since_last_run
| storage_recover_streams (entries : list restore_entry) (download_dir : string)
| blob_manager_delete_blobs (blob_hashes : list (option string)) (delete_from_db : bool)
| storage_delete (descriptor : StreamDescriptor.t)
| stream_stop_tasks (stream : ref)
| stream_file (stream : ref) (request : Request) (node : option Node)
| stream_save_file (stream : ref) (file_name download_directory : string)
    (node : option Node)
| loop_create_task (t : task_id) (c : coroutine)
| task_cancel (t : task_id)
| gathered (ts : list task_id).

(** Answers of the collaborators. *)
Record Collaborators : Type := {
  is_blob_verified : string → bool;
  (** [None]: the call raises [InvalidStreamDescriptorError]. *)
  get_stream_descriptor : string → option StreamDescriptor.t;
  get_blobs_for_stream : string → list BlobInfo.t;
  (** [StreamDescriptor.recover(blob_dir, sd_blob, stream_hash, stream_name,
      suggested_file_name, key, blobs)]. *)
  recover : Blob → string → string → string → string → list BlobInfo.t →
            option StreamDescriptor.t;
  get_all_lbry_files : list FileInfo.t;
  get_streams_to_re_reflect : list string;
  get_content_claim : string → option ClaimInfo;
  (** The [blobs_completed] property of the stream with this [sd_hash]. *)
  blobs_completed : string → bool;
  (** Whether an upload of the stream with this [sd_hash] sends every blob. *)
  upload_completes : string → bool
}.

(** ** The manager with the objects it shares *)

Record StreamManager : Type := {
  config : Config.t;
  node : option Node;
  _sources : gmap string ref;
  running_reflector_uploads : gmap string task_id;
  resume_saving_task : option task_id;
  (** [storage.content_claim_callbacks]: each closure captures one stream. *)
  content_claim_callbacks : gmap string ref;
  objects : gmap ref ManagedStream.t;
  tasks : gmap task_id Task.t;
  calls : list call;
  random_draws : list nat
}.

Definition with_sources (f : gmap string ref → gmap string ref) (m : StreamManager) :=
  {| config := config m; node := node m; _sources := f (_sources m);
     running_reflector_uploads := running_reflector_uploads m;
     resume_saving_task := resume_saving_task m;
     content_claim_callbacks := content_claim_callbacks m;
     objects := objects m; tasks := tasks m; calls := calls m;
     random_draws := random_draws m |}.

Definition with_running (f : gmap string task_id → gmap string task_id) (m : StreamManager) :=
  {| config := config m; node := node m; _sources := _sources m;
     running_reflector_uploads := f (running_reflector_uploads m);
     resume_saving_task := resume_saving_task m;
     content_claim_callbacks := content_claim_callbacks m;
     objects := objects m; tasks := tasks m; calls := calls m;
     random_draws := random_draws m |}.

Definition with_resume_saving_task (t : option task_id) (m : StreamManager) :=
  {| config := config m; node := node m; _sources := _sources m;
     running_reflector_uploads := running_reflector_uploads m;
     resume_saving_task := t;
     content_claim_callbacks := content_claim_callbacks m;
     objects := objects m; tasks := tasks m; calls := calls m;
     random_draws := random_draws m |}.

Definition with_callbacks (f : gmap string ref → gmap string ref) (m : StreamManager) :=
  {| config := config m; node := node m; _sources := _sources m;
     running_reflector_uploads := running_reflector_uploads m;
     resume_saving_task := resume_saving_task m;
     content_claim_callbacks := f (content_claim_callbacks m);
     objects := objects m; tasks := tasks m; calls := calls m;
     random_draws := random_draws m |}.

Definition with_objects (f : gmap ref ManagedStream.t → gmap ref ManagedStream.t)
    (m : StreamManager) :=
  {| config := config m; node := node m; _sources := _sources m;
     running_reflector_uploads := running_reflector_uploads m;
     resume_saving_task := resume_saving_task m;
     content_claim_callbacks := content_claim_callbacks m;
     objects := f (objects m); tasks := tasks m; calls := calls m;
     random_draws := random_draws m |}.

Definition with_tasks (f : gmap task_id Task.t → gmap task_id Task.t) (m : StreamManager) :=
  {| config := config m; node := node m; _sources := _sources m;
     running_reflector_uploads := running_reflector_uploads m;
     resume_saving_task := resume_saving_task m;
     content_claim_callbacks := content_claim_callbacks m;
     objects := objects m; tasks := f (tasks m); calls := calls m;
     random_draws := random_draws m |}.

Definition with_calls (f : list call → list call) (m : StreamManager) :=
  {| config := config m; node := node m; _sources := _sources m;
     running_reflector_uploads := running_reflector_uploads m;
     resume_saving_task := resume_saving_task m;
     content_claim_callbacks := content_claim_callbacks m;
     objects := objects m; tasks := tasks m; calls := f (calls m);
     random_draws := random_draws m |}.

Definition with_random_draws (l : list nat) (m : StreamManager) :=
  {| config := config m; node := node m; _sources := _sources m;
     running_reflector_uploads := running_reflector_uploads m;
     resume_saving_task := resume_saving_task m;
     content_claim_callbacks := content_claim_callbacks m;
     objects := objects m; tasks := tasks m; calls := calls m;
     random_draws := l |}.

(** [StreamManager.__init__], lines 44-55. *)
Definition __init__ (cfg : Config.t) (nd : option Node) (draws : list nat) : StreamManager :=
  {| config := cfg; node := nd; _sources := ∅; running_reflector_uploads := ∅;
     resume_saving_task := None; content_claim_callbacks := ∅;
     objects := ∅; tasks := ∅; calls := []; random_draws := draws |}.

(** ** Computations: state and exceptions *)

Definition M (A : Type) : Type := StreamManager → result A * StreamManager.

Definition ret {A} (a : A) : M A := λ m, (Ok a, m).

Definition bind {A B} (c : M A) (k : A → M B) : M B :=
  λ m, match c m with
       | (Ok a, m') => k a m'
       | (Raise e, m') => (Raise e, m')
       end.

Definition raise {A} (e : exn) : M A := λ m, (Raise e, m).

(** The outcome of [c] as a value: what a [try] block sees. *)
Definition attempt {A} (c : M A) : M (result A) :=
  λ m, let '(r, m') := c m in (Ok r, m').

Definition lift {A} (r : result A) : M A := λ m, (r, m).

Definition get : M StreamManager := λ m, (Ok m, m).
Definition modify (f : StreamManager → StreamManager) : M unit := λ m, (Ok tt, f m).
Definition record_call (c : call) : M unit := modify (with_calls (λ l, (l ++ [c])%list)).

Notation "x <- c ;; k" := (bind c (λ x, k))
  (at level 100, c at next level, right associativity).
Notation "c ;;; k" := (bind c (λ _, k))
  (at level 100, right associativity).

Definition when (b : bool) (c : M unit) : M unit := if b then c else ret tt.

(** Reading the object a reference names.  Every reference Python holds is
    live, so the failure branch is not reachable from the source. *)
Definition deref (r : ref) : M ManagedStream.t :=
  λ m, match objects m !! r with
       | Some s => (Ok s, m)
       | None => (Raise InvalidReference, m)
       end.

(** Allocation of a fresh object. *)
Definition fresh_key {V} (h : gmap nat V) : nat :=
  S (max_list (elements (dom h))).

Definition alloc (s : ManagedStream.t) : M ref :=
  λ m, let r := fresh_key (objects m) in
       (Ok r, with_objects <[r := s]> m).

(** ** Python odds and ends *)

Definition truthy (v : pyval) : bool :=
  match v with
  | PNone => false
  | PBool b => b
  | PInt z => negb (z =? 0)%Z
  | PStr s => str_truthy s
  | PClaim _ | PTx _ | PObject _ => true
  end.

Definition opt_int_truthy (p : option Z) : bool :=
  match p with None => false | Some z => negb (z =? 0)%Z end.

(** Names bound at module level, lines 1-32 (imports, [log], [path_or_none]
    and the class). *)
Definition module_globals : list string :=
  [ "os"; "asyncio"; "binascii"; "logging"; "random"; "typing"; "Optional";
    "Request"; "InvalidStreamDescriptorError"; "SourceManager";
    "StreamDescriptor"; "ManagedStream"; "ManagedDownloadSource"; "log";
    "path_or_none"; "StreamManager" ].

(** Reading a name that is not local to the function: module globals, then
    builtins, none of which is called [fully_reflected]. *)
Definition load_global (name : string) : M pyval :=
  if bool_decide (name ∈ module_globals)
  then ret (PObject name)
  else raise (NameError name).

(** [random.choice(seq)]: the next draw picks the index. *)
Definition random_choice {A} (seq : list A) : M A :=
  λ m, match seq with
       | [] => (Raise (IndexError "Cannot choose from an empty sequence"), m)
       | a :: _ =>
           let d := hd 0 (random_draws m) in
           (Ok (nth (d mod List.length seq) seq a),
            with_random_draws (tl (random_draws m)) m)
       end.

(** [loop.create_task(coro)]. *)
Definition create_task (c : coroutine) : M task_id :=
  λ m, let t := fresh_key (tasks m) in
       (Ok t,
        with_calls (λ l, (l ++ [loop_create_task t c])%list)
          (with_tasks <[t := {| Task.coro := c; Task.done_callbacks := [];
                                Task.cancel_requested := false;
                                Task.exception := None;
                                Task.done := false |}]> m)).

Definition add_done_callback (t : task_id) (cb : done_callback) : M unit :=
  modify (with_tasks (alter (λ k,
    {| Task.coro := Task.coro k;
       Task.done_callbacks := (Task.done_callbacks k ++ [cb])%list;
       Task.cancel_requested := Task.cancel_requested k;
       Task.exception := Task.exception k;
       Task.done := Task.done k |}) t)).

(** [task.cancel()]: the request is noted; the task ends when the loop next
    runs it. *)
Definition cancel (t : task_id) : M unit :=
  record_call (task_cancel t) ;;;
  modify (with_tasks (alter (λ k,
    {| Task.coro := Task.coro k;
       Task.done_callbacks := Task.done_callbacks k;
       Task.cancel_requested := true;
       Task.exception := Task.exception k;
       Task.done := Task.done k |}) t)).

Definition finish (e : option exn) (k : Task.t) : Task.t :=
  {| Task.coro := Task.coro k;
     Task.done_callbacks := Task.done_callbacks k;
     Task.cancel_requested := Task.cancel_requested k;
     Task.exception := e;
     Task.done := true |}.

Definition result_bind {A B} (r : result A) (k : A → result B) : result B :=
  match r with Ok a => k a | Raise e => Raise e end.

(** A list comprehension whose element expression may raise. *)
Fixpoint comprehension {A B} (f : A → result B) (l : list A) : result (list B) :=
  match l with
  | [] => Ok []
  | a :: l' =>
      result_bind (f a) (λ b,
      result_bind (comprehension f l') (λ bs, Ok (b :: bs)))
  end.

(** [binascii.unhexlify(s).decode()]. *)
Definition unhexlify_decode (s : string) : result string :=
  result_bind (Hex.unhexlify s) Utf8.decode.

(** ** The methods of StreamManager *)

Section Methods.

Variable env : Collaborators.

(** Modelled from the spec: [SourceManager.add] is outside this file; the
    base registry "registers the stream", keyed by its manifest hash. *)
Definition super_add (source : ref) : M unit :=
  s <- deref source ;;
  modify (with_sources <[ManagedStream.sd_hash s := source]>).

(** Modelled from the spec: the [streams] attribute is declared outside this
    file; it is the live registry, the dictionary [self._sources]. *)
Definition streams (m : StreamManager) : gmap string ref := _sources m.

(** [add], lines 57-59. *)
Definition add (source : ref) : M unit :=
  super_add source ;;;
  s <- deref source ;;
  modify (with_callbacks <[ManagedStream.stream_hash s := source]>).

(** [dict.setdefault] on [self._sources]. *)
Definition sources_setdefault (k : string) (default : ref) : M ref :=
  λ m, match _sources m !! k with
       | Some r => (Ok r, m)
       | None => (Ok default, with_sources <[k := default]> m)
       end.

(** [_update_content_claim], lines 61-63.  The receiver of [set_claim] is
    evaluated before its arguments. *)
Definition _update_content_claim (stream : ref) : M unit :=
  s <- deref stream ;;
  let claim_info := get_content_claim env (ManagedStream.stream_hash s) in
  target <- sources_setdefault (ManagedStream.sd_hash s) stream ;;
  match claim_info with
  | None => raise (TypeError "'NoneType' object is not subscriptable")
  | Some ci =>
      modify (with_objects (alter (ManagedStream.set_claim ci (value ci)) target))
  end.

(** The inner [recover_stream], lines 68-78; [to_restore] is the list of the
    enclosing call. *)
Definition recover_stream (to_restore : list restore_entry)
    (args : string * string * string * string * string * option Transaction)
    : M (list restore_entry) :=
  let '(sd_hash, stream_hash, stream_name, suggested_file_name, key, content_fee) := args in
  let sd_blob := {| of_hash := sd_hash |} in
  let blobs := get_blobs_for_stream env stream_hash in
  match recover env sd_blob stream_hash stream_name suggested_file_name key blobs with
  | None => ret to_restore
  | Some descriptor => ret (to_restore ++ [(descriptor, sd_blob, content_fee)])%list
  end.

(** The arguments of one [recover_stream] call, lines 82-84. *)
Definition recover_stream_args (file_info : FileInfo.t)
    : result (string * string * string * string * string * option Transaction) :=
  result_bind (unhexlify_decode (FileInfo.stream_name file_info)) (λ stream_name,
  result_bind (unhexlify_decode (FileInfo.suggested_file_name file_info)) (λ suggested,
  Ok (FileInfo.sd_hash file_info, FileInfo.stream_hash file_info, stream_name,
      suggested, FileInfo.key file_info, FileInfo.content_fee file_info))).

Fixpoint gather_recover_stream (to_restore : list restore_entry)
    (calls : list (string * string * string * string * string * option Transaction))
    : M (list restore_entry) :=
  match calls with
  | [] => ret to_restore
  | c :: calls' =>
      to_restore' <- recover_stream to_restore c ;;
      gather_recover_stream to_restore' calls'
  end.

(** [recover_streams], lines 65-89. *)
Definition recover_streams (file_infos : list FileInfo.t) : M unit :=
  coros <- lift (comprehension recover_stream_args file_infos) ;;
  to_restore <- gather_recover_stream [] coros ;;
  match to_restore with
  | [] => ret tt
  | _ :: _ =>
      m <- get ;;
      record_call (storage_recover_streams to_restore (Config.download_dir (config m)))
  end.

(** [blob_manager.get_stream_descriptor(sd_hash)]. *)
Definition blob_manager_get_stream_descriptor (sd_hash : pyval) : M StreamDescriptor.t :=
  match sd_hash with
  | PStr h =>
      match get_stream_descriptor env h with
      | Some d => ret d
      | None => raise (InvalidStreamDescriptorError h)
      end
  | _ => raise (TypeError "sd_hash must be str")
  end.

(** The constructor call of lines 103-107; a new stream is not reflected. *)
Definition new_ManagedStream (sd_hash : string)
    (download_directory file_name status claim content_fee rowid : pyval)
    (descriptor : StreamDescriptor.t) (added_on : pyval) : ManagedStream.t :=
  {| ManagedStream.sd_hash := sd_hash;
     ManagedStream.download_directory := download_directory;
     ManagedStream.file_name := file_name;
     ManagedStream.status := status;
     ManagedStream.stream_claim_info := claim;
     ManagedStream.content_fee := content_fee;
     ManagedStream.rowid := rowid;
     ManagedStream.descriptor := descriptor;
     ManagedStream.added_on := added_on;
     ManagedStream.fully_reflected := false |}.

(** The body of [_load_stream], lines 98-110, once its parameters are bound.
    [fully_reflected], line 108, is not among them. *)
Definition _load_stream_body
    (rowid sd_hash file_name download_directory status claim content_fee added_on : pyval)
    : M unit :=
  r <- attempt (blob_manager_get_stream_descriptor sd_hash) ;;
  match r with
  | Raise (InvalidStreamDescriptorError err) => record_call (log_warning sd_hash err)
  | Raise e => raise e
  | Ok descriptor =>
      stream <- alloc (new_ManagedStream (StreamDescriptor.sd_hash descriptor)
                         download_directory file_name status claim content_fee
                         rowid descriptor added_on) ;;
      fully_reflected <- load_global "fully_reflected" ;;
      when (truthy fully_reflected)
           (modify (with_objects (alter ManagedStream.set_fully_reflected stream))) ;;;
      add stream
  end.

(** Calling [self._load_stream(...)], signature of lines 94-97: eight
    parameters after [self].  The call binds the positional arguments and
    returns the coroutine, or raises [TypeError]. *)
Definition _load_stream (args : list pyval) : result coroutine :=
  match args with
  | [rowid; sd_hash; file_name; download_directory; status; claim; content_fee; added_on] =>
      Ok (load_stream rowid sd_hash file_name download_directory status claim
            content_fee added_on)
  | _ => Raise (TypeError "_load_stream() got a wrong number of positional arguments")
  end.

(** Modelled from the spec: the streams' own coroutines
    [upload_to_reflector] and [save_file] are outside this file; an upload
    that mirrors the stream completely marks it fully reflected, and
    [save_file] is a call to the stream.  [_load_stream] is the one above. *)
Definition run_coroutine (c : coroutine) : M unit :=
  match c with
  | upload_to_reflector stream server port =>
      s <- deref stream ;;
      when (upload_completes env (ManagedStream.sd_hash s))
           (modify (with_objects (alter ManagedStream.set_fully_reflected stream)))
  | load_stream rowid sd_hash file_name download_directory status claim content_fee added_on =>
      _load_stream_body rowid sd_hash file_name download_directory status claim
        content_fee added_on
  | gather_save_file entries nd =>
      modify (with_calls (λ l,
        (l ++ map (λ '(stream, file_name, download_directory),
                     stream_save_file stream file_name download_directory nd)
                  entries)%list))
  end.

(** The callback of lines 199-202. *)
Definition run_done_callback (cb : done_callback) : M unit :=
  match cb with
  | pop_running_upload stream =>
      s <- deref stream ;;
      m <- get ;;
      match running_reflector_uploads m !! ManagedStream.sd_hash s with
      | None => ret tt
      | Some _ => modify (with_running (delete (ManagedStream.sd_hash s)))
      end
  end.

Fixpoint run_done_callbacks (cbs : list done_callback) : M unit :=
  match cbs with
  | [] => ret tt
  | cb :: cbs' =>
      _ <- attempt (run_done_callback cb) ;;
      run_done_callbacks cbs'
  end.

(** The event loop runs task [t] to its end: a task asked to cancel ends
    without running its coroutine; what the coroutine raises is kept in the
    task; then the done-callbacks run, their own exceptions being reported
    to the loop and not to any caller. *)
Definition complete_task (t : task_id) : M unit :=
  m <- get ;;
  match tasks m !! t with
  | None => raise InvalidReference
  | Some k =>
      if Task.done k then ret tt
      else
        r <- (if Task.cancel_requested k then ret (Ok tt)
              else attempt (run_coroutine (Task.coro k))) ;;
        modify (with_tasks (alter (finish
          match r with Ok _ => None | Raise e => Some e end) t)) ;;;
        run_done_callbacks (Task.done_callbacks k)
  end.

Fixpoint complete_tasks (ts : list task_id) : M unit :=
  match ts with
  | [] => ret tt
  | t :: ts' => complete_task t ;;; complete_tasks ts'
  end.

Definition first_exception (m : StreamManager) (ts : list task_id) : option exn :=
  list_find is_Some (map (λ t, tasks m !! t ≫= Task.exception) ts) ≫= snd.

(** [await asyncio.gather] of the tasks [ts]. *)
Definition gather (ts : list task_id) : M unit :=
  complete_tasks ts ;;;
  record_call (gathered ts) ;;;
  m <- get ;;
  match first_exception m ts with
  | Some e => raise e
  | None => ret tt
  end.

(** [k in d]. *)
Definition dict_in {V} (k : string) (d : gmap string V) : bool :=
  match d !! k with Some _ => true | None => false end.

Definition nonempty {A} (l : list A) : bool :=
  match l with [] => false | _ :: _ => true end.

(** The positional arguments of the call of lines 136-141. *)
Definition _load_stream_call_args (file_info : FileInfo.t)
    (file_name download_directory : option string) : list pyval :=
  [ PInt (FileInfo.rowid file_info); PStr (FileInfo.sd_hash file_info);
    of_opt PStr file_name; of_opt PStr download_directory;
    PStr (FileInfo.status file_info);
    of_opt PClaim (FileInfo.claim file_info);
    of_opt PTx (FileInfo.content_fee file_info);
    of_opt PInt (FileInfo.added_on file_info);
    PBool (FileInfo.fully_reflected file_info) ].

(** The test of line 134. *)
Definition should_resume_saving (file_info : FileInfo.t)
    (file_name download_directory : option string) : bool :=
  opt_str_truthy file_name && opt_str_truthy download_directory
  && negb (FileInfo.saved_file file_info)
  && String.eqb (FileInfo.status file_info) "running".

(** The loop of lines 131-141. *)
Fixpoint start_files (to_start : list FileInfo.t)
    (to_resume_saving : list (string * string * string))
    (add_stream_tasks : list task_id)
    : M (list (string * string * string) * list task_id) :=
  match to_start with
  | [] => ret (to_resume_saving, add_stream_tasks)
  | file_info :: rest =>
      file_name <- lift (path_or_none (FileInfo.file_name file_info)) ;;
      download_directory <- lift (path_or_none (FileInfo.download_directory file_info)) ;;
      let to_resume_saving' :=
        if should_resume_saving file_info file_name download_directory
        then (to_resume_saving ++
              [(default "" file_name, default "" download_directory,
                FileInfo.sd_hash file_info)])%list
        else to_resume_saving in
      coro <- lift (_load_stream
                      (_load_stream_call_args file_info file_name download_directory)) ;;
      task <- create_task coro ;;
      start_files rest to_resume_saving' (add_stream_tasks ++ [task])%list
  end.

(** The generator of lines 150-151, unpacked into [asyncio.gather]. *)
Fixpoint save_file_calls (to_resume_saving : list (string * string * string))
    : M (list (ref * string * string)) :=
  match to_resume_saving with
  | [] => ret []
  | (file_name, download_directory, sd_hash) :: rest =>
      m <- get ;;
      match _sources m !! sd_hash with
      | None => raise (KeyError sd_hash)
      | Some stream =>
          calls <- save_file_calls rest ;;
          ret ((stream, file_name, download_directory) :: calls)
      end
  end.

(** [initialize_from_database], lines 112-153 ([log.info] left out). *)
Definition initialize_from_database : M unit :=
  record_call update_manually_removed_files_since_last_run ;;;
  let files := get_all_lbry_files env in
  let to_recover :=
    List.filter (λ file_info, negb (is_blob_verified env (FileInfo.sd_hash file_info)))
                files in
  let to_start := files in
  when (nonempty to_recover) (recover_streams to_recover) ;;;
  started <- start_files to_start [] [] ;;
  let '(to_resume_saving, add_stream_tasks) := started in
  when (nonempty add_stream_tasks) (gather add_stream_tasks) ;;;
  if nonempty to_resume_saving then
    calls <- save_file_calls to_resume_saving ;;
    m <- get ;;
    task <- create_task (gather_save_file calls (node m)) ;;
    modify (with_resume_saving_task (Some task))
  else ret tt.

(** [reflect_stream], lines 191-203. *)
Definition reflect_stream (stream : ref) (server : option string) (port : option Z)
    : M task_id :=
  m <- get ;;
  sp <- (if negb (opt_str_truthy server) || negb (opt_int_truthy port)
         then random_choice (Config.reflector_servers (config m))
         else ret (default "" server, default 0%Z port)) ;;
  let '(server, port) := sp in
  s <- deref stream ;;
  m <- get ;;
  match running_reflector_uploads m !! ManagedStream.sd_hash s with
  | Some task => ret task
  | None =>
      task <- create_task (upload_to_reflector stream server port) ;;
      modify (with_running <[ManagedStream.sd_hash s := task]>) ;;;
      add_done_callback task (pop_running_upload stream) ;;;
      ret task
  end.

(** The test of lines 163-165. *)
Definition due_for_reflection (m : StreamManager) (s : ManagedStream.t) : bool :=
  is_blob_verified env (ManagedStream.sd_hash s)
  && blobs_completed env (ManagedStream.sd_hash s)
  && negb (dict_in (ManagedStream.sd_hash s) (running_reflector_uploads m))
  && negb (ManagedStream.fully_reflected s).

(** One turn of the inner loop, lines 162-169, for the hash just popped. *)
Definition reflect_popped (sd_hash : string) (batch : list task_id) : M (list task_id) :=
  m <- get ;;
  match streams m !! sd_hash with
  | None => raise (KeyError sd_hash)
  | Some stream =>
      s <- deref stream ;;
      batch' <- (if due_for_reflection m s
                 then task <- reflect_stream stream None None ;;
                      ret (batch ++ [task])%list
                 else ret batch) ;;
      if (Config.concurrent_reflector_uploads (config m) <=? Z.of_nat (List.length batch'))%Z
      then gather batch' ;;; ret []
      else ret batch'
  end.

(** The inner loop, lines 161-169; [popped] lists the hashes in the order
    [sd_hashes.pop()] yields them, last first. *)
Fixpoint reflect_all (popped : list string) (batch : list task_id) : M (list task_id) :=
  match popped with
  | [] => ret batch
  | sd_hash :: rest =>
      batch' <- reflect_popped sd_hash batch ;;
      reflect_all rest batch'
  end.

(** One cycle of [reflect_streams], lines 157-171; the loop of line 156
    repeats it every 300 seconds. *)
Definition reflect_streams_cycle : M unit :=
  m <- get ;;
  if Config.reflect_streams (config m) && nonempty (Config.reflector_servers (config m))
  then
    let sd_hashes := get_streams_to_re_reflect env in
    let sd_hashes := List.filter (λ sd, dict_in sd (_sources m)) sd_hashes in
    batch <- reflect_all (rev sd_hashes) [] ;;
    when (nonempty batch) (gather batch)
  else ret tt.

(** [delete_stream] up to its first [await], lines 215-220. *)
Definition delete_stream_until_await (stream : ref) : M (list (option string)) :=
  s <- deref stream ;;
  m <- get ;;
  match running_reflector_uploads m !! ManagedStream.sd_hash s with
  | Some task => cancel task
  | None => ret tt
  end ;;;
  record_call (stream_stop_tasks stream) ;;;
  m <- get ;;
  when (dict_in (ManagedStream.sd_hash s) (streams m))
       (modify (with_sources (delete (ManagedStream.sd_hash s)))) ;;;
  ret (Some (ManagedStream.sd_hash s)
       :: map BlobInfo.blob_hash
              (removelast (StreamDescriptor.blobs (ManagedStream.descriptor s)))).

(** [delete_stream], lines 214-222. *)
Definition delete_stream (stream : ref) (delete_file : bool) : M unit :=
  blob_hashes <- delete_stream_until_await stream ;;
  record_call (blob_manager_delete_blobs blob_hashes false) ;;;
  s <- deref stream ;;
  record_call (storage_delete (ManagedStream.descriptor s)).

(** [stream_partial_content], lines 407-408. *)
Definition stream_partial_content (request : Request) (sd_hash : string) : M unit :=
  m <- get ;;
  match _sources m !! sd_hash with
  | None => raise (KeyError sd_hash)
  | Some stream => record_call (stream_file stream request (node m))
  end.

End Methods.

(** ** Further methods *)

(** *** Hex encoding *)

(** [str.encode()]: the bytes of a text. *)
Definition bytes_of_text (t : string) : list N :=
  map N_of_ascii (list_ascii_of_string t).

Definition hex_digit (n : N) : ascii :=
  ascii_of_N (if (n <? 10)%N then 48 + n else 87 + n)%N.

(** [binascii.hexlify(bs).decode()], the encoding [path_or_none] undoes:
    two lower-case digits per byte. *)
Fixpoint hexlify (bs : list N) : string :=
  match bs with
  | [] => EmptyString
  | b :: bs' => String (hex_digit (b / 16)) (String (hex_digit (b mod 16)) (hexlify bs'))
  end.

(** *** create_stream *)

Section Create.

(** [ManagedStream.create(loop, config, blob_manager, file_path, key,
    iv_generator)] is outside this file: it is taken as given, by the stream
    it returns or the exception it raises.  What it does to the blob store and
    to the storage is outside the manager. *)
Variable ManagedStream_create :
  string → option string → option (list string) → result ManagedStream.t.

(** [create_stream], lines 205-212. *)
Definition create_stream (file_path : string) (key : option string)
    (iv_generator : option (list string)) : M ref :=
  s <- lift (ManagedStream_create file_path key iv_generator) ;;
  stream <- alloc s ;;
  modify (with_sources <[ManagedStream.sd_hash s := stream]>) ;;;
  modify (with_callbacks <[ManagedStream.stream_hash s := stream]>) ;;;
  m <- get ;;
  (if Config.reflect_streams (config m) && nonempty (Config.reflector_servers (config m))
   then _ <- reflect_stream stream None None ;; ret tt
   else ret tt) ;;;
  ret stream.

End Create.

(** *** stop *)

(** The task running [reflect_streams()], of which [stop] reads [done()] and
    calls [cancel()]. *)
Record LoopTask : Type := {
  loop_cancel_requested : bool;
  loop_done : bool
}.

(** The manager with the attributes only [start] and [stop] use. *)
Record Lifecycle : Type := {
  manager : StreamManager;
  re_reflect_task : option LoopTask;
  update_stream_finished_futs : list nat;
  (** The futures [cancel()] was called on, oldest call first. *)
  cancelled_futures : list nat;
  started : bool
}.

(** Lines 179-180: a task that is set and not done is asked to cancel. *)
Definition cancel_unless_done (t : option task_id) : M unit :=
  match t with
  | None => ret tt
  | Some t =>
      m <- get ;;
      match tasks m !! t with
      | None => raise InvalidReference
      | Some k => if Task.done k then ret tt else cancel t
      end
  end.

(** Lines 181-182, on the task of the reflection loop. *)
Definition cancel_loop_unless_done (t : option LoopTask) : option LoopTask :=
  match t with
  | None => None
  | Some k =>
      if loop_done k then Some k
      else Some {| loop_cancel_requested := true; loop_done := loop_done k |}
  end.

(** Lines 185-187, over the entries in the order [popitem] hands them out. *)
Fixpoint cancel_all (entries : list (string * task_id)) : M unit :=
  match entries with
  | [] => ret tt
  | (sd, t) :: rest =>
      modify (with_running (delete sd)) ;;;
      cancel t ;;;
      cancel_all rest
  end.

Section Stop.

(** [dict.popitem()] hands out the entries last inserted first.  The map does
    not record the insertions: the order comes from outside. *)
Variable popitem_order : gmap string task_id → list (string * task_id).

(** [stop], lines 178-189 ([log.info] left out). *)
Definition stop (l : Lifecycle) : result unit * Lifecycle :=
  let m := manager l in
  match cancel_unless_done (resume_saving_task m) m with
  | (Raise e, m1) =>
      (Raise e, {| manager := m1; re_reflect_task := re_reflect_task l;
                   update_stream_finished_futs := update_stream_finished_futs l;
                   cancelled_futures := cancelled_futures l; started := started l |})
  | (Ok _, m1) =>
      match cancel_all (popitem_order (running_reflector_uploads m1)) m1 with
      | (r, m2) =>
          (r, {| manager := m2;
                 re_reflect_task := cancel_loop_unless_done (re_reflect_task l);
                 update_stream_finished_futs := [];
                 cancelled_futures :=
                   (cancelled_futures l ++ rev (update_stream_finished_futs l))%list;
                 started := match r with Ok _ => false | Raise _ => started l end |})
      end
  end.

End Stop.

(** The manager as [__init__] leaves it, lines 51-55. *)
Definition new_lifecycle (m : StreamManager) : Lifecycle :=
  {| manager := m; re_reflect_task := None; update_stream_finished_futs := [];
     cancelled_futures := []; started := false |}.

(** ** Vocabulary of the statements *)

(** The restore entry of a record, in the words of the spec: the record's
    reconstructed descriptor when reconstruction yields one, nothing
    otherwise. *)
Definition restore_entry_spec (env : Collaborators) (file_info : FileInfo.t)
    : option restore_entry :=
  match recover_stream_args file_info with
  | Raise _ => None
  | Ok (sd_hash, stream_hash, stream_name, suggested_file_name, key, content_fee) =>
      match recover env {| of_hash := sd_hash |} stream_hash stream_name
              suggested_file_name key (get_blobs_for_stream env stream_hash) with
      | None => None
      | Some descriptor => Some (descriptor, {| of_hash := sd_hash |}, content_fee)
      end
  end.

(** A call of [reflect_stream] can name a server: both arguments are given,
    or the configuration lists at least one reflector. *)
Definition server_known (m : StreamManager) (server : option string) (port : option Z)
    : Prop :=
  opt_str_truthy server && opt_int_truthy port = true
  ∨ Config.reflector_servers (config m) ≠ [].

(** The server a call of [reflect_stream] uploads to, and the manager once
    the choice is made. *)
Definition chosen_server (m : StreamManager) (server : option string) (port : option Z)
    : string * Z :=
  if negb (opt_str_truthy server) || negb (opt_int_truthy port)
  then let seq := Config.reflector_servers (config m) in
       nth (hd 0 (random_draws m) mod List.length seq) seq ("", 0%Z)
  else (default "" server, default 0%Z port).

Definition after_choice (m : StreamManager) (server : option string) (port : option Z)
    : StreamManager :=
  if negb (opt_str_truthy server) || negb (opt_int_truthy port)
  then with_random_draws (tl (random_draws m)) m
  else m.

Definition new_upload_task (stream : ref) (sp : string * Z) : Task.t :=
  {| Task.coro := upload_to_reflector stream sp.1 sp.2;
     Task.done_callbacks := [pop_running_upload stream];
     Task.cancel_requested := false; Task.exception := None; Task.done := false |}.

(** What [reflect_stream] leaves behind when it starts an upload. *)
Definition upload_started (m : StreamManager) (stream : ref) (sd : string) (sp : string * Z)
    : StreamManager :=
  let task := fresh_key (tasks m) in
  with_tasks <[task := new_upload_task stream sp]>
    (with_running <[sd := task]>
       (with_calls (λ l, (l ++ [loop_create_task task
                                  (upload_to_reflector stream sp.1 sp.2)])%list) m)).



Definition is_upload (c : coroutine) : Prop :=
  match c with upload_to_reflector _ _ _ => True | _ => False end.





(** The manifest hash of the object a reference names. *)
Definition hash_of (m : StreamManager) (stream : ref) : option string :=
  ManagedStream.sd_hash <$> objects m !! stream.

(** Every unfinished upload is the one registered under its stream's hash
    and carries the callback of [reflect_stream]; other unfinished tasks
    carry no callback. *)
Definition uploads_registered (m : StreamManager) : Prop :=
  ∀ t k, tasks m !! t = Some k → Task.done k = false →
    match Task.coro k with
    | upload_to_reflector stream _ _ =>
        ∃ sd, hash_of m stream = Some sd
              ∧ running_reflector_uploads m !! sd = Some t
              ∧ Task.done_callbacks k = [pop_running_upload stream]
    | _ => Task.done_callbacks k = []
    end.

(** An unfinished upload of a stream whose manifest hash is [sd]. *)
Definition in_flight (m : StreamManager) (sd : string) (t : task_id) : Prop :=
  ∃ k stream srv p,
    tasks m !! t = Some k ∧ Task.done k = false
    ∧ Task.coro k = upload_to_reflector stream srv p
    ∧ hash_of m stream = Some sd.

Definition hashes_kept (m m' : StreamManager) : Prop :=
  ∀ r sd, hash_of m r = Some sd → hash_of m' r = Some sd.

Definition request_cancel (k : Task.t) : Task.t :=
  {| Task.coro := Task.coro k; Task.done_callbacks := Task.done_callbacks k;
     Task.cancel_requested := true; Task.exception := Task.exception k;
     Task.done := Task.done k |}.

(** A stream object comes into being, a method of the manager other than
    [stop] runs, or a task runs to its end. *)
Inductive method_step (env : Collaborators) (m m' : StreamManager) : Prop :=
| step_new_stream s r :
    alloc s m = (r, m') → method_step env m m'
| step_add source r :
    add source m = (r, m') → method_step env m m'
| step_update_content_claim stream r :
    _update_content_claim env stream m = (r, m') → method_step env m m'
| step_initialize_from_database r :
    initialize_from_database env m = (r, m') → method_step env m m'
| step_reflect_streams_cycle r :
    reflect_streams_cycle env m = (r, m') → method_step env m m'
| step_reflect_stream stream server port r :
    reflect_stream stream server port m = (r, m') → method_step env m m'
| step_delete_stream stream delete_file r :
    delete_stream stream delete_file m = (r, m') → method_step env m m'
| step_stream_partial_content request sd_hash r :
    stream_partial_content request sd_hash m = (r, m') → method_step env m m'
| step_complete_task t r :
    complete_task env t m = (r, m') → method_step env m m'.

(** [stop] runs, on a manager with whatever loop task and futures it has;
    [popitem] hands out each entry of the registry of uploads once. *)
Inductive stop_step (m m' : StreamManager) : Prop :=
| step_stop l popitem_order r l' :
    manager l = m →
    popitem_order (running_reflector_uploads m)
      ≡ₚ map_to_list (running_reflector_uploads m) →
    stop popitem_order l = (r, l') →
    manager l' = m' →
    stop_step m m'.


(** Every upload has ended, by itself or after a cancellation. *)
Definition uploads_ended (m : StreamManager) : Prop :=
  ∀ t k, tasks m !! t = Some k → Task.done k = false → ¬ is_upload (Task.coro k).

(** The steps of a manager on which [stop] runs only once every upload has
    ended. *)
Definition orderly_step (env : Collaborators) (m m' : StreamManager) : Prop :=
  method_step env m m' ∨ (uploads_ended m ∧ stop_step m m').

(** Both [server] and [port] are given. *)
Definition server_given (server : option string) (port : option Z) : bool :=
  opt_str_truthy server && opt_int_truthy port.

(** The manager once lines 208-209 have run for a new stream [s]. *)
Definition created (m : StreamManager) (s : ManagedStream.t) : StreamManager :=
  let stream := fresh_key (objects m) in
  with_callbacks <[ManagedStream.stream_hash s := stream]>
    (with_sources <[ManagedStream.sd_hash s := stream]>
       (with_objects <[stream := s]> m)).

(** Line 210: reflection is switched on and a reflector is configured. *)
Definition reflection_configured (m : StreamManager) : bool :=
  Config.reflect_streams (config m) && nonempty (Config.reflector_servers (config m)).

(** ** Concrete inputs *)

Module Sample.

Definition blob0 : BlobInfo.t :=
  {| BlobInfo.blob_num := 0; BlobInfo.length := 2097152; BlobInfo.iv := "iv0";
     BlobInfo.blob_hash := Some "b0" |}.
Definition blob1 : BlobInfo.t :=
  {| BlobInfo.blob_num := 1; BlobInfo.length := 1024; BlobInfo.iv := "iv1";
     BlobInfo.blob_hash := Some "b1" |}.
Definition terminator : BlobInfo.t :=
  {| BlobInfo.blob_num := 2; BlobInfo.length := 0; BlobInfo.iv := "iv2";
     BlobInfo.blob_hash := None |}.

Definition descriptor_A : StreamDescriptor.t :=
  {| StreamDescriptor.sd_hash := "A"; StreamDescriptor.stream_hash := "hA";
     StreamDescriptor.stream_name := "x.mp4";
     StreamDescriptor.suggested_file_name := "x.mp4";
     StreamDescriptor.key := "k";
     StreamDescriptor.blobs := [blob0; blob1; terminator] |}.

(** The record of the spec's scenario: "782e6d7034" is "x.mp4" and "2f646c"
    is "/dl". *)
Definition row_A : FileInfo.t :=
  {| FileInfo.rowid := 1; FileInfo.sd_hash := "A"; FileInfo.stream_hash := "hA";
     FileInfo.file_name := Some "782e6d7034";
     FileInfo.download_directory := Some "2f646c";
     FileInfo.status := "running"; FileInfo.saved_file := false;
     FileInfo.claim := None; FileInfo.content_fee := None;
     FileInfo.added_on := Some 1600000000%Z; FileInfo.fully_reflected := true;
     FileInfo.stream_name := "782e6d7034";
     FileInfo.suggested_file_name := "782e6d7034"; FileInfo.key := "k" |}.

(** A record whose manifest cannot be loaded nor reconstructed. *)
Definition row_B : FileInfo.t :=
  {| FileInfo.rowid := 2; FileInfo.sd_hash := "B"; FileInfo.stream_hash := "hB";
     FileInfo.file_name := None; FileInfo.download_directory := None;
     FileInfo.status := "stopped"; FileInfo.saved_file := false;
     FileInfo.claim := None; FileInfo.content_fee := None;
     FileInfo.added_on := None; FileInfo.fully_reflected := false;
     FileInfo.stream_name := "62"; FileInfo.suggested_file_name := "62";
     FileInfo.key := "k" |}.

Definition claim_A : ClaimInfo :=
  {| info := {| outpoint := "tx:0"; claim_id := "c1" |}; value := "claim" |}.

(** Every manifest is verified; only that of "A" loads and reconstructs. *)
Definition collaborators (files : list FileInfo.t) : Collaborators :=
  {| is_blob_verified := λ _, true;
     get_stream_descriptor := λ h, if String.eqb h "A" then Some descriptor_A else None;
     get_blobs_for_stream := λ h, if String.eqb h "hA" then [blob0; blob1] else [];
     recover := λ _ h _ _ _ _, if String.eqb h "hA" then Some descriptor_A else None;
     get_all_lbry_files := files;
     get_streams_to_re_reflect := ["A"];
     get_content_claim := λ h, if String.eqb h "hA" then Some claim_A else None;
     blobs_completed := λ _, true;
     upload_completes := λ _, true |}.

Definition configuration (servers : list (string * Z)) (limit : Z) : Config.t :=
  {| Config.reflect_streams := true; Config.reflector_servers := servers;
     Config.concurrent_reflector_uploads := limit; Config.download_dir := "/dl" |}.

Definition stream_A : ManagedStream.t :=
  new_ManagedStream "A" (PStr "/dl") (PStr "x.mp4") (PStr "finished") PNone PNone
    (PInt 1) descriptor_A (PInt 1600000000).

(** A manager in which [stream_A] is object 1, registered by [add]. *)
Definition registered (cfg : Config.t) : StreamManager :=
  ((_ <- alloc stream_A ;; add 1) (__init__ cfg None [])).2.

Definition request : Request := {| request_path := "/stream/A" |}.

End Sample.

(** A record whose stored stream name is not hexadecimal. *)
Definition row_bad_name : FileInfo.t :=
  {| FileInfo.rowid := 3; FileInfo.sd_hash := "C"; FileInfo.stream_hash := "hC";
     FileInfo.file_name := None; FileInfo.download_directory := None;
     FileInfo.status := "stopped"; FileInfo.saved_file := false;
     FileInfo.claim := None; FileInfo.content_fee := None;
     FileInfo.added_on := None; FileInfo.fully_reflected := false;
     FileInfo.stream_name := "zz"; FileInfo.suggested_file_name := "62";
     FileInfo.key := "k" |}.

(** * Properties *)

Ltac run :=
  unfold bind, ret, raise, lift, get, modify, record_call, when, attempt; simpl.

(** ** path_or_none *)

Example path_or_none_absent : path_or_none None = Ok None.
Proof. reflexivity. Qed.

Example path_or_none_empty : path_or_none (Some "") = Ok None.
Proof. reflexivity. Qed.

Example path_or_none_x_mp4 : path_or_none (Some "782e6d7034") = Ok (Some "x.mp4").
Proof. reflexivity. Qed.

Example path_or_none_dl : path_or_none (Some "2F646C") = Ok (Some "/dl").
Proof. reflexivity. Qed.

Example path_or_none_odd :
  path_or_none (Some "782") = Raise (BinasciiError "Odd-length string").
Proof. reflexivity. Qed.

Example path_or_none_bad_utf8 : path_or_none (Some "ff") = Raise UnicodeDecodeError.
Proof. reflexivity. Qed.

(** A path that decodes is never empty. *)
Lemma path_or_none_truthy p t : path_or_none p = Ok (Some t) → str_truthy t = true.
Proof.
  unfold path_or_none. destruct p as [s|]; simpl; [|done].
  destruct s as [|a [|b s]]; simpl; [done| |].
  - unfold Hex.unhexlify. simpl. by destruct (negb _).
  - unfold Hex.unhexlify. destruct (negb _); [done|]. destruct (Nat.odd _); [done|].
    simpl. destruct (Hex.digit a), (Hex.digit b), (Hex.pairs s); try done.
    unfold Utf8.decode. destruct (Utf8.valid _); [|done]. by intros [= <-].
Qed.

(** ** Objects and fresh keys *)


Lemma fresh_key_fresh {V} (h : gmap nat V) : h !! fresh_key h = None.
Proof.
  destruct (h !! fresh_key h) eqn:E; [|done]. exfalso.
  assert (Hin : fresh_key h ∈ elements (dom h)).
  { apply elem_of_elements, elem_of_dom. eauto. }
  apply max_list_elem_of_le in Hin. unfold fresh_key in Hin. lia.
Qed.





(** ** stream_partial_content *)

(** Claim C9.  For a manifest hash that is not in the registry,
    [stream_partial_content] fails with [KeyError] and leaves the manager as it
    was; for a hash that is registered, it calls the [stream_file] routine of
    the stream registered under it, passing the manager's node, and changes
    nothing but the log of calls. *)
Theorem stream_partial_content_lookup (m : StreamManager) (request : Request)
    (sd_hash : string) :
  (_sources m !! sd_hash = None →
   stream_partial_content request sd_hash m = (Raise (KeyError sd_hash), m))
  ∧ (∀ stream, _sources m !! sd_hash = Some stream →
     stream_partial_content request sd_hash m
     = (Ok tt, with_calls (λ l, (l ++ [stream_file stream request (node m)])%list) m)).
Proof.
  split.
  - intros H. unfold stream_partial_content. run. by rewrite H.
  - intros stream H. unfold stream_partial_content. run. by rewrite H.
Qed.

Lemma stream_partial_content_lookup_witness :
  let m := Sample.registered (Sample.configuration [] 1) in
  (_sources m !! "B" = None ∧ _sources m !! "A" = Some 1)
  ∧ stream_partial_content Sample.request "B" m = (Raise (KeyError "B"), m)
  ∧ stream_partial_content Sample.request "A" m
    = (Ok tt, with_calls (λ l, (l ++ [stream_file 1 Sample.request None])%list) m).
Proof.
  intros m. split; [split; reflexivity|]. split.
  - apply (proj1 (stream_partial_content_lookup m Sample.request "B")). reflexivity.
  - apply (proj2 (stream_partial_content_lookup m Sample.request "A") 1). reflexivity.
Defined.

(** ** delete_stream *)

(** Claim C3.  For a stream whose descriptor lists [data] followed by the
    terminator, [delete_stream] has removed the stream's hash from the
    registry by the time it reaches its first [await], having called nothing
    but the cancellation of a running upload and [stop_tasks]; it then calls
    [delete_blobs] once, with the manifest hash followed by the hashes of
    [data] and with [delete_from_db] false, and last [storage.delete] with the
    descriptor. *)
Theorem delete_stream_order (m : StreamManager) (stream : ref) (s : ManagedStream.t)
    (delete_file : bool) (data : list BlobInfo.t) (terminator : BlobInfo.t) :
  objects m !! stream = Some s →
  StreamDescriptor.blobs (ManagedStream.descriptor s) = (data ++ [terminator])%list →
  let sd := ManagedStream.sd_hash s in
  let blob_hashes := Some sd :: map BlobInfo.blob_hash data in
  let before :=
    (match running_reflector_uploads m !! sd with
     | Some task => [task_cancel task]
     | None => []
     end ++ [stream_stop_tasks stream])%list in
  ∃ m1 m2,
    delete_stream_until_await stream m = (Ok blob_hashes, m1)
    ∧ _sources m1 = delete sd (_sources m)
    ∧ calls m1 = (calls m ++ before)%list
    ∧ delete_stream stream delete_file m = (Ok tt, m2)
    ∧ _sources m2 = delete sd (_sources m)
    ∧ calls m2 = (calls m1 ++ [blob_manager_delete_blobs blob_hashes false;
                               storage_delete (ManagedStream.descriptor s)])%list.
Proof.
  intros Hs Hb sd blob_hashes before.
  assert (Hpre : ∃ m1, delete_stream_until_await stream m = (Ok blob_hashes, m1)
            ∧ _sources m1 = delete sd (_sources m)
            ∧ calls m1 = (calls m ++ before)%list
            ∧ objects m1 !! stream = Some s).
  { unfold delete_stream_until_await, streams, deref. run. rewrite Hs. simpl. fold sd.
    rewrite Hb, removelast_last. fold blob_hashes. subst before.
    destruct (running_reflector_uploads m !! sd) as [task|]; unfold cancel; run;
      unfold dict_in; simpl;
      destruct (_sources m !! sd) eqn:E; simpl; eexists; split_and!;
      try reflexivity; simpl; rewrite <- ?app_assoc; try done;
      by rewrite delete_id. }
  destruct Hpre as (m1 & H1 & H2 & H3 & H4).
  exists m1. unfold delete_stream. run. rewrite H1. unfold deref. simpl. rewrite H4. simpl.
  eexists. split_and!; try done. simpl. by rewrite <- app_assoc.
Qed.

Lemma delete_stream_order_witness :
  let m := Sample.registered (Sample.configuration [] 1) in
  objects m !! 1 = Some Sample.stream_A
  ∧ ∃ m1 m2,
      delete_stream_until_await 1 m = (Ok [Some "A"; Some "b0"; Some "b1"], m1)
      ∧ _sources m1 !! "A" = None
      ∧ delete_stream 1 false m = (Ok tt, m2)
      ∧ calls m2 = (calls m1 ++ [blob_manager_delete_blobs
                                   [Some "A"; Some "b0"; Some "b1"] false;
                                 storage_delete Sample.descriptor_A])%list.
Proof.
  intros m. split; [reflexivity|].
  destruct (delete_stream_order m 1 Sample.stream_A false
              [Sample.blob0; Sample.blob1] Sample.terminator)
    as (m1 & m2 & H1 & H2 & _ & H4 & _ & H6); [reflexivity|reflexivity|].
  exists m1, m2. split_and!; [exact H1| |exact H4|exact H6].
  rewrite H2. apply lookup_delete_eq.
Defined.

(** ** The callback table *)

(** Claim C6, amended.  [add] registers the stream under its manifest hash
    and installs one callback, keyed by the stream hash and capturing that
    stream; [delete_stream] takes the stream's manifest hash out of the
    registry, whichever stream is registered under it, and leaves the
    callback table as it was. *)
Theorem callback_table_follows_add (m : StreamManager) (source : ref)
    (s : ManagedStream.t) (delete_file : bool) :
  objects m !! source = Some s →
  (∃ m', add source m = (Ok tt, m')
     ∧ content_claim_callbacks m'
       = <[ManagedStream.stream_hash s := source]> (content_claim_callbacks m)
     ∧ _sources m' = <[ManagedStream.sd_hash s := source]> (_sources m))
  ∧ (∃ m', delete_stream source delete_file m = (Ok tt, m')
     ∧ _sources m' = delete (ManagedStream.sd_hash s) (_sources m)
     ∧ content_claim_callbacks m' = content_claim_callbacks m).
Proof.
  intros Hs. split.
  - unfold add, super_add, deref. run. rewrite Hs. simpl. rewrite Hs. simpl. eauto.
  - unfold delete_stream, delete_stream_until_await, streams, deref. run. rewrite Hs. simpl.
    destruct (running_reflector_uploads m !! _); unfold cancel; run;
      unfold dict_in; simpl; destruct (_sources m !! ManagedStream.sd_hash s) eqn:E;
      simpl; rewrite Hs; simpl; eexists; split_and!; try done; simpl;
      symmetry; by apply delete_id.
Qed.

Lemma callback_table_follows_add_witness :
  let m := Sample.registered (Sample.configuration [] 1) in
  objects m !! 1 = Some Sample.stream_A
  ∧ (∃ m', add 1 m = (Ok tt, m')
       ∧ content_claim_callbacks m' !! "hA" = Some 1
       ∧ _sources m' !! "A" = Some 1)
  ∧ ∃ m', delete_stream 1 false m = (Ok tt, m')
      ∧ _sources m !! "A" = Some 1
      ∧ _sources m' !! "A" = None
      ∧ content_claim_callbacks m' = content_claim_callbacks m.
Proof.
  intros m. split; [reflexivity|].
  destruct (callback_table_follows_add m 1 Sample.stream_A false eq_refl)
    as ((m1 & A1 & A2 & A3) & (m2 & D1 & D2 & D3)).
  split.
  - exists m1. split_and!; [exact A1| |].
    + rewrite A2. apply lookup_insert_eq.
    + rewrite A3. apply lookup_insert_eq.
  - exists m2. split_and!; [exact D1|reflexivity| |exact D3].
    rewrite D2. apply lookup_delete_eq.
Defined.

(** Claim C6 as stated fails: after [add] and [delete_stream] the stream is
    gone from the registry and its callback is still in the table. *)
Lemma delete_stream_keeps_callback :
  let m := Sample.registered (Sample.configuration [] 1) in
  let m' := (delete_stream 1 false m).2 in
  (delete_stream 1 false m).1 = Ok tt
  ∧ _sources m' !! "A" = None
  ∧ content_claim_callbacks m' !! "hA" = Some 1
  ∧ content_claim_callbacks m' !! "hA" ≠ None.
Proof. vm_compute. split_and!; done. Qed.

(** ** _update_content_claim *)

(** Claim C10.  When the callback fires with claim info for a stream whose
    manifest hash is not registered, the stream is inserted under that hash
    and the claim is set on it; when the hash is registered, the registry
    stays as it is and the claim is set on the stream registered there. *)
Theorem update_content_claim_setdefault (env : Collaborators) (m : StreamManager)
    (stream : ref) (s : ManagedStream.t) (ci : ClaimInfo) :
  objects m !! stream = Some s →
  get_content_claim env (ManagedStream.stream_hash s) = Some ci →
  let sd := ManagedStream.sd_hash s in
  (_sources m !! sd = None →
     _update_content_claim env stream m
     = (Ok tt, with_objects (alter (ManagedStream.set_claim ci (value ci)) stream)
                 (with_sources <[sd := stream]> m)))
  ∧ (∀ registered, _sources m !! sd = Some registered →
     _update_content_claim env stream m
     = (Ok tt, with_objects (alter (ManagedStream.set_claim ci (value ci)) registered) m)).
Proof.
  intros Hs Hci sd. split.
  - intros Habs. unfold _update_content_claim, deref, sources_setdefault. run.
    rewrite Hs. simpl. fold sd. rewrite Habs, Hci. done.
  - intros registered Hreg. unfold _update_content_claim, deref, sources_setdefault. run.
    rewrite Hs. simpl. fold sd. rewrite Hreg, Hci. done.
Qed.

Lemma update_content_claim_setdefault_witness :
  let env := Sample.collaborators [] in
  let m := Sample.registered (Sample.configuration [] 1) in
  let deleted := (delete_stream 1 false m).2 in
  (objects deleted !! 1 = Some Sample.stream_A
   ∧ get_content_claim env "hA" = Some Sample.claim_A
   ∧ _sources deleted !! "A" = None
   ∧ _sources m !! "A" = Some 1)
  ∧ _sources (_update_content_claim env 1 deleted).2 !! "A" = Some 1
  ∧ _sources (_update_content_claim env 1 m).2 = _sources m.
Proof.
  intros env m deleted. split; [split_and!; reflexivity|]. split.
  - rewrite (proj1 (update_content_claim_setdefault env deleted 1 Sample.stream_A
                      Sample.claim_A eq_refl eq_refl) eq_refl).
    reflexivity.
  - rewrite (proj2 (update_content_claim_setdefault env m 1 Sample.stream_A
                      Sample.claim_A eq_refl eq_refl) 1 eq_refl).
    reflexivity.
Defined.

(** The insertion comes first: it stays when there is no claim info and the
    argument [claim_info['value']] raises. *)
Lemma update_content_claim_inserts_first env m stream s :
  objects m !! stream = Some s →
  get_content_claim env (ManagedStream.stream_hash s) = None →
  _sources m !! ManagedStream.sd_hash s = None →
  _update_content_claim env stream m
  = (Raise (TypeError "'NoneType' object is not subscriptable"),
     with_sources <[ManagedStream.sd_hash s := stream]> m).
Proof.
  intros Hs Hci Habs. unfold _update_content_claim, deref, sources_setdefault. run.
  rewrite Hs. simpl. by rewrite Habs, Hci.
Qed.
(** ** reflect_stream *)

Lemma reflect_stream_choice m stream server port s :
  objects m !! stream = Some s →
  server_known m server port →
  reflect_stream stream server port m =
  let m0 := after_choice m server port in
  let '(srv, p) := chosen_server m server port in
  match running_reflector_uploads m !! ManagedStream.sd_hash s with
  | Some task => (Ok task, m0)
  | None =>
      (task <- create_task (upload_to_reflector stream srv p) ;;
       modify (with_running <[ManagedStream.sd_hash s := task]>) ;;;
       add_done_callback task (pop_running_upload stream) ;;;
       ret task) m0
  end.
Proof.
  intros Hs Hk. unfold reflect_stream, chosen_server, after_choice.
  unfold bind at 1. unfold get at 1. unfold bind at 1.
  destruct (negb (opt_str_truthy server) || negb (opt_int_truthy port)) eqn:E.
  - destruct Hk as [Hk|Hk].
    { apply andb_true_iff in Hk as [H1 H2]. by rewrite H1, H2 in E. }
    unfold random_choice. destruct (Config.reflector_servers (config m)) as [|a l] eqn:El; [done|].
    rewrite (nth_indep _ a ("", 0%Z)).
    2:{ apply Nat.mod_upper_bound. done. }
    destruct (nth _ _ _) as [srv p]. unfold deref, bind, get. simpl. rewrite Hs.
    simpl. destruct (running_reflector_uploads m !! _); reflexivity.
  - unfold ret at 1. destruct server as [srv|], port as [p|]; simpl in *; try done;
      unfold deref, bind, get; simpl; rewrite Hs; simpl;
      destruct (running_reflector_uploads m !! _); reflexivity.
Qed.

Lemma reflect_stream_new m stream server port s :
  objects m !! stream = Some s →
  server_known m server port →
  running_reflector_uploads m !! ManagedStream.sd_hash s = None →
  reflect_stream stream server port m
  = (Ok (fresh_key (tasks m)),
     upload_started (after_choice m server port) stream (ManagedStream.sd_hash s)
       (chosen_server m server port)).
Proof.
  intros Hs Hk Hr. rewrite (reflect_stream_choice _ _ _ _ s) by done.
  rewrite Hr. simpl. destruct (chosen_server m server port) as [srv p].
  unfold create_task, add_done_callback. run.
  assert (Ht : tasks (after_choice m server port) = tasks m).
  { unfold after_choice. by destruct (_ || _). }
  rewrite Ht. f_equal. unfold upload_started, with_tasks. simpl. rewrite Ht.
  f_equal. rewrite alter_insert_eq. done.
Qed.

Lemma reflect_stream_existing m stream server port s task :
  objects m !! stream = Some s →
  server_known m server port →
  running_reflector_uploads m !! ManagedStream.sd_hash s = Some task →
  reflect_stream stream server port m = (Ok task, after_choice m server port).
Proof.
  intros Hs Hk Hr. rewrite (reflect_stream_choice _ _ _ _ s) by done.
  rewrite Hr. simpl. by destruct (chosen_server m server port).
Qed.


Lemma after_choice_fields m server port :
  let m0 := after_choice m server port in
  config m0 = config m ∧ _sources m0 = _sources m
  ∧ running_reflector_uploads m0 = running_reflector_uploads m
  ∧ objects m0 = objects m ∧ tasks m0 = tasks m ∧ calls m0 = calls m.
Proof. unfold after_choice. by destruct (_ || _). Qed.


(** ** recover_streams *)

Lemma gather_recover_stream_spec env m file_infos coros acc :
  comprehension recover_stream_args file_infos = Ok coros →
  gather_recover_stream env acc coros m
  = (Ok (acc ++ omap (restore_entry_spec env) file_infos)%list, m).
Proof.
  revert coros acc. induction file_infos as [|fi fis IH]; intros coros acc Hc.
  - simpl in Hc. injection Hc as <-. simpl. by rewrite app_nil_r.
  - simpl in Hc. unfold result_bind in Hc.
    destruct (recover_stream_args fi) as [a|] eqn:Ea; [|done].
    destruct (comprehension recover_stream_args fis) as [cs|] eqn:Ec; [|done].
    injection Hc as <-. simpl. unfold restore_entry_spec at 1. rewrite Ea.
    destruct a as [[[[[sd sh] sn] sf] ky] fee].
    unfold bind at 1. unfold recover_stream at 1.
    destruct (recover env _ _ _ _ _ _) as [d|]; unfold ret at 1.
    + rewrite (IH cs) by done. by rewrite <- app_assoc.
    + by rewrite (IH cs).
Qed.

Lemma comprehension_ok {A B} (f : A → result B) (l : list A) :
  Forall (λ a, is_ok (f a) = true) l → ∃ bs, comprehension f l = Ok bs.
Proof.
  induction 1 as [|a l Ha _ [bs IH]]; simpl; [eauto|].
  destruct (f a); [|done]. rewrite IH. simpl. eauto.
Qed.




(** ** reflect_streams *)


















(** ** initialize_from_database *)

(** The call of lines 136-141 hands nine arguments to a function of eight. *)
Lemma _load_stream_call_raises file_info file_name download_directory :
  _load_stream (_load_stream_call_args file_info file_name download_directory)
  = Raise (TypeError "_load_stream() got a wrong number of positional arguments").
Proof. reflexivity. Qed.

Lemma start_files_raises file_info rest to_resume_saving add_stream_tasks m :
  ∃ e, start_files (file_info :: rest) to_resume_saving add_stream_tasks m = (Raise e, m).
Proof.
  cbn [start_files]. unfold bind at 1, lift at 1.
  destruct (path_or_none (FileInfo.file_name file_info)) as [fn|e]; [|by exists e].
  unfold bind at 1, lift at 1.
  destruct (path_or_none (FileInfo.download_directory file_info)) as [dd|e]; [|by exists e].
  unfold bind at 1, lift at 1. rewrite _load_stream_call_raises. by eexists.
Qed.

Lemma recover_streams_calls_only env file_infos m :
  ∃ r l, recover_streams env file_infos m = (r, with_calls (λ _, l) m).
Proof.
  unfold recover_streams. unfold bind at 1, lift at 1.
  destruct (comprehension recover_stream_args file_infos) as [coros|e].
  2:{ exists (Raise e), (calls m). by destruct m. }
  assert (H : ∀ coros acc, ∃ out, gather_recover_stream env acc coros m = (Ok out, m)).
  { clear. induction coros as [|c coros IH]; intros acc; simpl; [by eexists|].
    unfold bind, recover_stream.
    destruct c as [[[[[sd sh] sn] sf] ky] fee].
    destruct (recover env _ _ _ _ _ _); unfold ret; apply IH. }
  destruct (H coros []) as [out E]. unfold bind at 1. rewrite E.
  destruct out; run.
  - exists (Ok tt), (calls m). by destruct m.
  - eexists _, _. reflexivity.
Qed.

(** Whenever the database holds a record, [initialize_from_database] raises
    before any stream is loaded or any saving resumed. *)
Lemma initialize_from_database_raises env m :
  get_all_lbry_files env ≠ [] →
  ∃ e m', initialize_from_database env m = (Raise e, m')
    ∧ _sources m' = _sources m
    ∧ objects m' = objects m
    ∧ tasks m' = tasks m
    ∧ running_reflector_uploads m' = running_reflector_uploads m
    ∧ resume_saving_task m' = resume_saving_task m.
Proof.
  intros Hne. unfold initialize_from_database.
  destruct (get_all_lbry_files env) as [|file_info rest] eqn:Hfiles; [done|].
  unfold bind at 1. unfold record_call at 1, modify at 1.
  set (m0 := with_calls _ m).
  unfold bind at 1.
  assert (Hrec : ∃ r l,
    when (nonempty (List.filter (λ fi, negb (is_blob_verified env (FileInfo.sd_hash fi)))
                      (file_info :: rest)))
         (recover_streams env (List.filter
            (λ fi, negb (is_blob_verified env (FileInfo.sd_hash fi)))
            (file_info :: rest))) m0 = (r, with_calls (λ _, l) m)).
  { unfold when. destruct (nonempty _).
    - destruct (recover_streams_calls_only env
                  (List.filter (λ fi, negb (is_blob_verified env (FileInfo.sd_hash fi)))
                     (file_info :: rest)) m0) as (r & l & ->).
      by exists r, l.
    - eexists _, _. reflexivity. }
  destruct Hrec as (r & l & ->).
  destruct r as [[]|e]; [|by eexists _, _].
  unfold bind at 1.
  destruct (start_files_raises file_info rest [] [] (with_calls (λ _, l) m)) as [e ->].
  by eexists _, _.
Qed.

Lemma _load_stream_body_invalid_descriptor env h rowid file_name download_directory
    status claim content_fee added_on m :
  get_stream_descriptor env h = None →
  _load_stream_body env rowid (PStr h) file_name download_directory status claim
    content_fee added_on m
  = (Ok tt, with_calls (λ l, (l ++ [log_warning (PStr h) h])%list) m).
Proof. intros H. unfold _load_stream_body. run. by rewrite H. Qed.

Lemma _load_stream_body_valid_descriptor env h d rowid file_name download_directory
    status claim content_fee added_on m :
  get_stream_descriptor env h = Some d →
  (_load_stream_body env rowid (PStr h) file_name download_directory status claim
     content_fee added_on m).1
  = Raise (NameError "fully_reflected")
  ∧ _sources (_load_stream_body env rowid (PStr h) file_name download_directory status
                claim content_fee added_on m).2 = _sources m.
Proof. intros H. unfold _load_stream_body. run. by rewrite H. Qed.

(** Claim C1, on the code.  With one persisted record whose manifest blob is
    verified and whose descriptor loads, [initialize_from_database] raises
    [TypeError] at the call of [_load_stream] and registers no stream: the
    call passes [fully_reflected] as a ninth argument, which the signature
    does not take. *)
Theorem initialize_from_database_registers_nothing :
  let env := Sample.collaborators [Sample.row_A] in
  let m := __init__ (Sample.configuration [] 1) None [] in
  is_blob_verified env (FileInfo.sd_hash Sample.row_A) = true
  ∧ get_stream_descriptor env (FileInfo.sd_hash Sample.row_A) = Some Sample.descriptor_A
  ∧ initialize_from_database env m
    = (Raise (TypeError "_load_stream() got a wrong number of positional arguments"),
       with_calls (λ _, [update_manually_removed_files_since_last_run]) m)
  ∧ _sources (initialize_from_database env m).2 !! "A" = None.
Proof. vm_compute. split_and!; reflexivity. Qed.

(** Claim C7, on the code.  With a record whose descriptor is invalid
    followed by a record whose descriptor loads, [initialize_from_database]
    raises [TypeError] at the first call of [_load_stream]: no warning is
    logged and the second record is not loaded. *)
Theorem initialize_from_database_loads_no_sibling :
  let env := Sample.collaborators [Sample.row_B; Sample.row_A] in
  let m := __init__ (Sample.configuration [] 1) None [] in
  get_stream_descriptor env (FileInfo.sd_hash Sample.row_B) = None
  ∧ get_stream_descriptor env (FileInfo.sd_hash Sample.row_A) = Some Sample.descriptor_A
  ∧ (initialize_from_database env m).1
    = Raise (TypeError "_load_stream() got a wrong number of positional arguments")
  ∧ calls (initialize_from_database env m).2
    = [update_manually_removed_files_since_last_run]
  ∧ _sources (initialize_from_database env m).2 !! "A" = None.
Proof. vm_compute. split_and!; reflexivity. Qed.

(** Claim C8, on the code.  The record of the spec's scenario passes the
    test of line 134, yet [initialize_from_database] raises [TypeError]
    before the resume-saving batch is started: no task exists and
    [resume_saving_task] is still [None]. *)
Theorem initialize_from_database_resumes_nothing :
  let env := Sample.collaborators [Sample.row_A] in
  let m := __init__ (Sample.configuration [] 1) None [] in
  path_or_none (FileInfo.file_name Sample.row_A) = Ok (Some "x.mp4")
  ∧ path_or_none (FileInfo.download_directory Sample.row_A) = Ok (Some "/dl")
  ∧ should_resume_saving Sample.row_A (Some "x.mp4") (Some "/dl") = true
  ∧ (initialize_from_database env m).1
    = Raise (TypeError "_load_stream() got a wrong number of positional arguments")
  ∧ resume_saving_task (initialize_from_database env m).2 = None
  ∧ tasks (initialize_from_database env m).2 = ∅.
Proof. vm_compute. split_and!; reflexivity. Qed.

(** ** One upload per stream *)

Lemma uploads_registered_one_in_flight m sd t1 t2 :
  uploads_registered m → in_flight m sd t1 → in_flight m sd t2 → t1 = t2.
Proof.
  intros Hinv (k1 & st1 & srv1 & p1 & Ht1 & Hd1 & Hc1 & Hh1)
              (k2 & st2 & srv2 & p2 & Ht2 & Hd2 & Hc2 & Hh2).
  pose proof (Hinv t1 k1 Ht1 Hd1) as H1. rewrite Hc1 in H1.
  pose proof (Hinv t2 k2 Ht2 Hd2) as H2. rewrite Hc2 in H2.
  destruct H1 as (sd1 & E1 & R1 & _), H2 as (sd2 & E2 & R2 & _).
  congruence.
Qed.

Lemma uploads_registered_init cfg nd draws : uploads_registered (__init__ cfg nd draws).
Proof. intros t k Ht. simpl in Ht. by rewrite lookup_empty in Ht. Qed.

Lemma uploads_registered_ext m m' :
  tasks m' = tasks m → objects m' = objects m →
  running_reflector_uploads m' = running_reflector_uploads m →
  uploads_registered m → uploads_registered m'.
Proof.
  intros Et Eo Er Hinv t k Ht Hd. rewrite Et in Ht.
  specialize (Hinv t k Ht Hd). destruct (Task.coro k); try done.
  unfold hash_of in *. by rewrite Eo, Er.
Qed.

Lemma reflect_stream_keeps_uploads_registered stream server port m r m' :
  reflect_stream stream server port m = (r, m') →
  uploads_registered m → uploads_registered m'.
Proof.
  unfold reflect_stream. unfold bind at 1, get at 1. unfold bind at 1.
  intros Hrun Hinv.
  assert (Hch : ∃ rc m0,
    (if negb (opt_str_truthy server) || negb (opt_int_truthy port)
     then random_choice (Config.reflector_servers (config m))
     else ret (default "" server, default 0%Z port)) m = (rc, m0)
    ∧ tasks m0 = tasks m ∧ objects m0 = objects m
    ∧ running_reflector_uploads m0 = running_reflector_uploads m).
  { destruct (_ || _).
    - unfold random_choice. destruct (Config.reflector_servers (config m));
        eexists _, _; split; try reflexivity; done.
    - eexists _, _; split; try reflexivity; done. }
  destruct Hch as (rc & m0 & Ech & Et & Eo & Er). rewrite Ech in Hrun.
  pose proof (uploads_registered_ext m m0 Et Eo Er Hinv) as Hinv0.
  destruct rc as [[srv p]|e]; [|by injection Hrun as _ <-].
  unfold bind at 1, deref at 1 in Hrun.
  destruct (objects m0 !! stream) as [s|] eqn:Hs; [|by injection Hrun as _ <-].
  unfold bind at 1, get at 1 in Hrun.
  destruct (running_reflector_uploads m0 !! ManagedStream.sd_hash s) as [t0|] eqn:Hr;
    [by injection Hrun as _ <-|].
  unfold create_task, add_done_callback, bind, modify, ret in Hrun. simpl in Hrun.
  injection Hrun as _ <-.
  intros t k. simpl. rewrite alter_insert_eq.
  destruct (decide (t = fresh_key (tasks m0))) as [->|Hne].
  - rewrite lookup_insert_eq. intros [= <-] _. simpl.
    exists (ManagedStream.sd_hash s). unfold hash_of. simpl. rewrite Hs.
    by rewrite lookup_insert_eq.
  - rewrite lookup_insert_ne by done. intros Ht Hd.
    specialize (Hinv0 t k Ht Hd). destruct (Task.coro k); try done.
    destruct Hinv0 as (sd & Hh & Hreg & Hcb). exists sd. unfold hash_of in *. simpl.
    split_and!; try done. rewrite lookup_insert_ne; [done|]. congruence.
Qed.

Lemma hashes_kept_same m m' : objects m' = objects m → hashes_kept m m'.
Proof. intros E r sd. unfold hash_of. by rewrite E. Qed.

Lemma run_coroutine_frame env c m r m' :
  run_coroutine env c m = (r, m') →
  tasks m' = tasks m
  ∧ running_reflector_uploads m' = running_reflector_uploads m
  ∧ hashes_kept m m'.
Proof.
  destruct c as [stream srv p|rowid sd fn dd st cl fee added|entries nd];
    unfold run_coroutine.
  - unfold deref, bind, when, modify, ret.
    destruct (objects m !! stream) as [s|] eqn:Hs.
    + destruct (upload_completes env _); intros [= _ <-]; split_and!; try done;
        [|by apply hashes_kept_same].
      intros r0 sd. unfold hash_of. simpl.
      destruct (decide (r0 = stream)) as [->|Hne].
      * rewrite lookup_alter_eq, Hs. done.
      * by rewrite lookup_alter_ne.
    + intros [= _ <-]. split_and!; try done. by apply hashes_kept_same.
  - unfold _load_stream_body, blob_manager_get_stream_descriptor.
    unfold bind, attempt, raise, ret, record_call, modify, alloc, load_global. simpl.
    destruct sd; simpl;
      try (intros [= _ <-]; split_and!; try done; by apply hashes_kept_same).
    destruct (get_stream_descriptor env s) as [d|]; simpl; intros [= _ <-];
      split_and!; try done; [|by apply hashes_kept_same].
    intros r0 sd. unfold hash_of. simpl. intros H.
    rewrite lookup_insert_ne; [done|]. intros <-.
    by rewrite fresh_key_fresh in H.
  - unfold modify. intros [= _ <-]. split_and!; try done. by apply hashes_kept_same.
Qed.

Lemma complete_task_keeps_uploads_registered env t m r m' :
  complete_task env t m = (r, m') →
  uploads_registered m → uploads_registered m'.
Proof.
  unfold complete_task. unfold bind at 1, get at 1.
  destruct (tasks m !! t) as [k|] eqn:Ht; [|by intros [= _ <-]].
  destruct (Task.done k) eqn:Hd; [by intros [= _ <-]|].
  intros Hrun Hinv.
  assert (Hfirst : ∃ r1 m1,
    (if Task.cancel_requested k then ret (Ok tt)
     else attempt (run_coroutine env (Task.coro k))) m = (Ok r1, m1)
    ∧ tasks m1 = tasks m
    ∧ running_reflector_uploads m1 = running_reflector_uploads m
    ∧ hashes_kept m m1).
  { destruct (Task.cancel_requested k).
    - eexists _, _. split; [reflexivity|]. split_and!; try done.
      by apply hashes_kept_same.
    - unfold attempt. destruct (run_coroutine env (Task.coro k) m) as [r1 m1] eqn:E.
      eexists _, _. split; [done|]. by eapply run_coroutine_frame. }
  destruct Hfirst as (r1 & m1 & E1 & Et1 & Er1 & Hk1).
  unfold bind at 1 in Hrun. rewrite E1 in Hrun.
  unfold bind at 1, modify at 1 in Hrun.
  set (e := match r1 with Ok _ => None | Raise e => Some e end) in Hrun.
  set (m2 := with_tasks (alter (finish e) t) m1) in Hrun.
  pose proof (Hinv t k Ht Hd) as Hk.
  (* the other unfinished tasks keep what the invariant gives them *)
  assert (Hothers : ∀ g, (∀ sd t0, t0 ≠ t →
              running_reflector_uploads m !! sd = Some t0 → g !! sd = Some t0) →
            uploads_registered (with_running (λ _, g) m2)).
  { intros g Hg t0 k0. simpl. rewrite Et1.
    destruct (decide (t0 = t)) as [->|Hne].
    - rewrite lookup_alter_eq, Ht. by intros [= <-].
    - rewrite lookup_alter_ne by done. intros Ht0 Hd0.
      specialize (Hinv t0 k0 Ht0 Hd0). destruct (Task.coro k0); try done.
      destruct Hinv as (sd & Hh & Hreg & Hcb). exists sd. split_and!; try done.
      + apply Hk1 in Hh. unfold hash_of in *. done.
      + by apply Hg. }
  destruct (Task.coro k) as [stream srv p| |] eqn:Hc.
  - destruct Hk as (sd & Hh & Hreg & Hcb). rewrite Hcb in Hrun.
    apply Hk1 in Hh. unfold hash_of in Hh.
    unfold run_done_callbacks, run_done_callback, bind, attempt, deref, get, ret, modify
      in Hrun.
    subst m2. simpl in Hrun.
    destruct (objects m1 !! stream) as [s1|] eqn:Hs1; [|done]. simpl in Hh.
    injection Hh as Hh.
    change (running_reflector_uploads (with_tasks (alter (finish e) t) m1))
      with (running_reflector_uploads m1) in Hrun.
    rewrite Hh, Er1, Hreg in Hrun. simpl in Hrun.
    injection Hrun as _ <-.
    apply (Hothers (delete sd (running_reflector_uploads m1))).
    intros sd0 t0 Hne H0. rewrite Er1. rewrite lookup_delete_ne; [done|].
    intros <-. congruence.
  - rewrite Hk in Hrun. simpl in Hrun. unfold ret in Hrun. injection Hrun as _ <-.
    replace m2 with (with_running (λ _, running_reflector_uploads m1) m2).
    + apply Hothers. intros sd0 t0 _. by rewrite Er1.
    + subst m2. clear. by destruct m1.
  - rewrite Hk in Hrun. simpl in Hrun. unfold ret in Hrun. injection Hrun as _ <-.
    replace m2 with (with_running (λ _, running_reflector_uploads m1) m2).
    + apply Hothers. intros sd0 t0 _. by rewrite Er1.
    + subst m2. clear. by destruct m1.
Qed.

(** The invariant reads the tasks up to their cancellation flag, the
    hashes of the objects and the registry of uploads. *)
Lemma uploads_registered_frame m m' :
  (∀ t k', tasks m' !! t = Some k' →
     ∃ k, tasks m !! t = Some k ∧ Task.done k = Task.done k'
          ∧ Task.coro k = Task.coro k'
          ∧ Task.done_callbacks k = Task.done_callbacks k') →
  hashes_kept m m' →
  running_reflector_uploads m' = running_reflector_uploads m →
  uploads_registered m → uploads_registered m'.
Proof.
  intros Ht Hh Er Hinv t k' Hk' Hd'.
  destruct (Ht t k' Hk') as (k & Hk & Ed & Ec & Ecb).
  rewrite <- Ed in Hd'. specialize (Hinv t k Hk Hd'). rewrite <- Ec, <- Ecb.
  destruct (Task.coro k); try done.
  destruct Hinv as (sd & H1 & H2 & H3). exists sd. rewrite Er. split_and!; try done.
  by apply Hh.
Qed.

Lemma uploads_registered_same_tasks m m' :
  tasks m' = tasks m → hashes_kept m m' →
  running_reflector_uploads m' = running_reflector_uploads m →
  uploads_registered m → uploads_registered m'.
Proof.
  intros Et. apply uploads_registered_frame. intros t k' Hk'. rewrite Et in Hk'. eauto.
Qed.

Lemma alloc_keeps_uploads_registered s m r m' :
  alloc s m = (r, m') → uploads_registered m → uploads_registered m'.
Proof.
  unfold alloc. intros [= _ <-]. apply uploads_registered_same_tasks; try done.
  intros r0 sd. unfold hash_of. simpl. intros H.
  rewrite lookup_insert_ne; [done|]. intros <-. by rewrite fresh_key_fresh in H.
Qed.

Lemma add_keeps_uploads_registered source m r m' :
  add source m = (r, m') → uploads_registered m → uploads_registered m'.
Proof.
  unfold add, super_add, deref, bind, modify.
  destruct (objects m !! source) as [s|] eqn:Hs; simpl; [rewrite Hs|];
    intros [= _ <-]; apply uploads_registered_same_tasks; try done;
    by apply hashes_kept_same.
Qed.

Lemma update_content_claim_keeps_uploads_registered env stream m r m' :
  _update_content_claim env stream m = (r, m') →
  uploads_registered m → uploads_registered m'.
Proof.
  unfold _update_content_claim, deref, sources_setdefault, bind, modify, raise.
  destruct (objects m !! stream) as [s|] eqn:Hs.
  2:{ intros [= _ <-]. done. }
  assert (Hset : ∀ ci target (m0 : StreamManager),
            objects m0 = objects m →
            hashes_kept m (with_objects
              (alter (ManagedStream.set_claim ci (value ci)) target) m0)).
  { intros ci target m0 E r0 sd. unfold hash_of. simpl. rewrite E.
    destruct (decide (r0 = target)) as [->|Hne].
    - rewrite lookup_alter_eq. by destruct (objects m !! target).
    - by rewrite lookup_alter_ne. }
  destruct (_sources m !! ManagedStream.sd_hash s);
    destruct (get_content_claim env _); intros [= _ <-];
    apply uploads_registered_same_tasks; try done;
    try (by apply hashes_kept_same); by apply Hset.
Qed.

Lemma delete_stream_frame stream delete_file m r m' :
  delete_stream stream delete_file m = (r, m') →
  objects m' = objects m
  ∧ running_reflector_uploads m' = running_reflector_uploads m
  ∧ (tasks m' = tasks m ∨ ∃ t0, tasks m' = alter request_cancel t0 (tasks m)).
Proof.
  unfold delete_stream, delete_stream_until_await, streams, deref, cancel,
    record_call, bind, get, modify, when, ret, dict_in.
  destruct (objects m !! stream) as [s|] eqn:Hs; [|intros [= _ <-]; eauto].
  destruct (running_reflector_uploads m !! ManagedStream.sd_hash s) as [t0|]; simpl;
    destruct (_sources m !! ManagedStream.sd_hash s); simpl; rewrite Hs;
    intros [= _ <-]; simpl; eauto.
Qed.

Lemma delete_stream_keeps_uploads_registered stream delete_file m r m' :
  delete_stream stream delete_file m = (r, m') →
  uploads_registered m → uploads_registered m'.
Proof.
  intros Hrun. destruct (delete_stream_frame _ _ _ _ _ Hrun) as (Eo & Er & Et).
  apply uploads_registered_frame; [|by apply hashes_kept_same|done].
  intros t k' Hk'. destruct Et as [Et|[t0 Et]]; rewrite Et in Hk'; [eauto|].
  destruct (decide (t = t0)) as [->|Hne].
  - rewrite lookup_alter_eq in Hk'. destruct (tasks m !! t0) as [k|]; [|done].
    injection Hk' as <-. eauto.
  - rewrite lookup_alter_ne in Hk' by done. eauto.
Qed.

Lemma gather_keeps_uploads_registered env ts m r m' :
  gather env ts m = (r, m') → uploads_registered m → uploads_registered m'.
Proof.
  assert (Hall : ∀ ts m r m', complete_tasks env ts m = (r, m') →
                   uploads_registered m → uploads_registered m').
  { clear. induction ts as [|t ts IH]; intros m r m'; simpl.
    - by intros [= _ <-].
    - unfold bind. destruct (complete_task env t m) as [[[]|e] m1] eqn:E.
      + intros E2 Hinv. eapply IH; [exact E2|].
        by eapply complete_task_keeps_uploads_registered.
      + intros [= _ <-]. by eapply complete_task_keeps_uploads_registered. }
  unfold gather. unfold bind at 1.
  destruct (complete_tasks env ts m) as [[[]|e] m1] eqn:E.
  - unfold bind, record_call, modify, get, raise, ret. intros Hr Hinv.
    pose proof (Hall _ _ _ _ E Hinv) as H1.
    assert (uploads_registered (with_calls (λ l, (l ++ [gathered ts])%list) m1)).
    { revert H1. apply uploads_registered_same_tasks; try done.
      by apply hashes_kept_same. }
    destruct (first_exception _ ts); by injection Hr as _ <-.
  - intros [= _ <-]. by eapply Hall.
Qed.

Lemma reflect_popped_keeps_uploads_registered env sd batch m r m' :
  reflect_popped env sd batch m = (r, m') →
  uploads_registered m → uploads_registered m'.
Proof.
  unfold reflect_popped, streams. unfold bind at 1, get at 1.
  destruct (_sources m !! sd) as [stream|]; [|by intros [= _ <-]].
  unfold bind at 1, deref at 1.
  destruct (objects m !! stream) as [s|]; [|by intros [= _ <-]].
  unfold bind at 1. intros Hrun Hinv.
  assert (Henq : ∃ rb m1,
    (if due_for_reflection env m s
     then task <- reflect_stream stream None None ;; ret (batch ++ [task])%list
     else ret batch) m = (rb, m1) ∧ uploads_registered m1).
  { destruct (due_for_reflection env m s).
    - unfold bind. destruct (reflect_stream stream None None m) as [[t|e] m1] eqn:E;
        eexists _, _; (split; [reflexivity|]);
        by eapply reflect_stream_keeps_uploads_registered.
    - by eexists _, _. }
  destruct Henq as (rb & m1 & E & Hinv1). rewrite E in Hrun.
  destruct rb as [batch'|e]; [|by injection Hrun as _ <-].
  destruct (_ <=? _)%Z.
  - unfold bind in Hrun. destruct (gather env batch' m1) as [[[]|e] m2] eqn:E2;
      injection Hrun as _ <-; by eapply gather_keeps_uploads_registered.
  - by injection Hrun as _ <-.
Qed.

Lemma reflect_streams_cycle_keeps_uploads_registered env m r m' :
  reflect_streams_cycle env m = (r, m') →
  uploads_registered m → uploads_registered m'.
Proof.
  assert (Hall : ∀ popped batch m r m', reflect_all env popped batch m = (r, m') →
                   uploads_registered m → uploads_registered m').
  { clear. induction popped as [|sd popped IH]; intros batch m r m'; simpl.
    - by intros [= _ <-].
    - unfold bind. destruct (reflect_popped env sd batch m) as [[b|e] m1] eqn:E.
      + intros E2 Hinv. eapply IH; [exact E2|].
        by eapply reflect_popped_keeps_uploads_registered.
      + intros [= _ <-]. by eapply reflect_popped_keeps_uploads_registered. }
  unfold reflect_streams_cycle. unfold bind at 1, get at 1.
  destruct (_ && _); [|by intros [= _ <-]].
  unfold bind. destruct (reflect_all env _ [] m) as [[batch|e] m1] eqn:E.
  - unfold when. intros Hrun Hinv. pose proof (Hall _ _ _ _ _ E Hinv) as H1.
    destruct (nonempty batch); [|by injection Hrun as _ <-].
    by eapply gather_keeps_uploads_registered.
  - intros [= _ <-]. by eapply Hall.
Qed.

Lemma stream_partial_content_frame request sd_hash m r m' :
  stream_partial_content request sd_hash m = (r, m') →
  tasks m' = tasks m ∧ objects m' = objects m
  ∧ running_reflector_uploads m' = running_reflector_uploads m.
Proof.
  unfold stream_partial_content, bind, get, record_call, modify, raise.
  destruct (_sources m !! sd_hash); by intros [= _ <-].
Qed.

Lemma initialize_from_database_frame env m r m' :
  initialize_from_database env m = (r, m') →
  tasks m' = tasks m ∧ objects m' = objects m
  ∧ running_reflector_uploads m' = running_reflector_uploads m.
Proof.
  destruct (get_all_lbry_files env) as [|file_info rest] eqn:Hfiles.
  - unfold initialize_from_database. rewrite Hfiles. simpl.
    unfold bind, record_call, modify, when, ret. simpl. by intros [= _ <-].
  - destruct (initialize_from_database_raises env m)
      as (e & m1 & -> & _ & Eo & Et & Er & _); [by rewrite Hfiles|].
    by intros [= _ <-].
Qed.

Lemma decide_elem_of_cons_eq {A B} `{EqDecision A} (x : A) (l : list A) (a b : B) :
  (if decide (x ∈ x :: l) then a else b) = a.
Proof. case_decide as H; [done|]. exfalso. apply H. left. Qed.

Lemma decide_elem_of_cons_ne {A B} `{EqDecision A} (x y : A) (l : list A) (a b : B) :
  x ≠ y →
  (if decide (x ∈ y :: l) then a else b) = (if decide (x ∈ l) then a else b).
Proof.
  intros Hne. case_decide as H; case_decide as H'; try done.
  - apply elem_of_cons in H as [?|?]; done.
  - exfalso. apply H. by right.
Qed.

Lemma cancel_all_effect entries m :
  ∃ m', cancel_all entries m = (Ok tt, m')
    ∧ (∀ sd, running_reflector_uploads m' !! sd
             = if decide (sd ∈ entries.*1) then None
               else running_reflector_uploads m !! sd)
    ∧ (∀ t, tasks m' !! t
            = if decide (t ∈ entries.*2) then request_cancel <$> tasks m !! t
              else tasks m !! t)
    ∧ calls m' = (calls m ++ map (λ e, task_cancel e.2) entries)%list
    ∧ _sources m' = _sources m ∧ objects m' = objects m ∧ config m' = config m
    ∧ content_claim_callbacks m' = content_claim_callbacks m
    ∧ resume_saving_task m' = resume_saving_task m
    ∧ random_draws m' = random_draws m.
Proof.
  revert m. induction entries as [|[sd0 t0] rest IH]; intros m.
  - exists m. simpl. unfold ret. split_and!; try done. by rewrite app_nil_r.
  - set (m1 := with_tasks (alter request_cancel t0)
                 (with_calls (λ l, (l ++ [task_cancel t0])%list)
                    (with_running (delete sd0) m))).
    destruct (IH m1) as (m' & E & Hr & Ht & Hc & Hs & Ho & Hcfg & Hcb & Hrs & Hrd).
    exists m'. split_and!; try done.
    + intros sd. rewrite Hr.
      change (running_reflector_uploads m1)
        with (delete sd0 (running_reflector_uploads m)).
      rewrite fmap_cons. cbn [fst].
      destruct (decide (sd = sd0)) as [->|Hne].
      * rewrite lookup_delete_eq, decide_elem_of_cons_eq. by case_decide.
      * by rewrite lookup_delete_ne, decide_elem_of_cons_ne.
    + intros t. rewrite Ht.
      change (tasks m1) with (alter request_cancel t0 (tasks m)).
      rewrite fmap_cons. cbn [snd].
      destruct (decide (t = t0)) as [->|Hne].
      * rewrite lookup_alter_eq, decide_elem_of_cons_eq.
        case_decide; [|done]. by destruct (tasks m !! t0).
      * by rewrite lookup_alter_ne, decide_elem_of_cons_ne.
    + rewrite Hc. simpl. by rewrite <- app_assoc.
Qed.

(** [stop] keeps the stream objects, and changes a task by a request to
    cancel at most. *)
Lemma cancel_unless_done_frame t m r m' :
  cancel_unless_done t m = (r, m') →
  objects m' = objects m
  ∧ running_reflector_uploads m' = running_reflector_uploads m
  ∧ ∀ t', tasks m' !! t' = tasks m !! t'
          ∨ tasks m' !! t' = request_cancel <$> tasks m !! t'.
Proof.
  unfold cancel_unless_done. destruct t as [t|].
  2:{ unfold ret. intros [= _ <-]. by split_and!; [| |left]. }
  unfold bind at 1, get at 1. destruct (tasks m !! t) as [k|] eqn:Hk.
  2:{ unfold raise. intros [= _ <-]. by split_and!; [| |left]. }
  destruct (Task.done k).
  { unfold ret. intros [= _ <-]. by split_and!; [| |left]. }
  unfold cancel, record_call, bind, modify. intros [= _ <-]. simpl.
  split_and!; try done. intros t'. destruct (decide (t' = t)) as [->|Hne].
  - right. by rewrite lookup_alter_eq.
  - left. by rewrite lookup_alter_ne.
Qed.

Lemma stop_frame popitem_order l r l' :
  stop popitem_order l = (r, l') →
  objects (manager l') = objects (manager l)
  ∧ ∀ t, tasks (manager l') !! t = tasks (manager l) !! t
         ∨ tasks (manager l') !! t = request_cancel <$> tasks (manager l) !! t.
Proof.
  unfold stop.
  destruct (cancel_unless_done _ (manager l)) as [r1 m1] eqn:E1.
  destruct (cancel_unless_done_frame _ _ _ _ E1) as (Ho1 & Hr1 & Ht1).
  destruct r1 as [[]|e].
  2:{ intros [= _ <-]. simpl. by split. }
  destruct (cancel_all_effect (popitem_order (running_reflector_uploads m1)) m1)
    as (m2 & E2 & _ & Ht2 & _ & _ & Ho2 & _).
  rewrite E2. intros [= _ <-]. simpl. split; [congruence|].
  intros t. rewrite Ht2. case_decide; [|apply Ht1].
  right. destruct (Ht1 t) as [->| ->]; [done|]. by destruct (tasks (manager l) !! t).
Qed.

Lemma method_step_keeps_uploads_registered env m m' :
  method_step env m m' → uploads_registered m → uploads_registered m'.
Proof.
  destruct 1 as [s r H|source r H|stream r H|r H|r H|stream server port r H
                |stream delete_file r H|request sd_hash r H|t r H].
  - by eapply alloc_keeps_uploads_registered.
  - by eapply add_keeps_uploads_registered.
  - by eapply update_content_claim_keeps_uploads_registered.
  - destruct (initialize_from_database_frame _ _ _ _ H) as (Et & Eo & Er).
    apply uploads_registered_same_tasks; try done. by apply hashes_kept_same.
  - by eapply reflect_streams_cycle_keeps_uploads_registered.
  - by eapply reflect_stream_keeps_uploads_registered.
  - by eapply delete_stream_keeps_uploads_registered.
  - destruct (stream_partial_content_frame _ _ _ _ _ H) as (Et & Eo & Er).
    apply uploads_registered_same_tasks; try done. by apply hashes_kept_same.
  - by eapply complete_task_keeps_uploads_registered.
Qed.

(** Once every upload has ended, [stop] finds no upload to leave behind. *)
Lemma stop_step_keeps_uploads_registered m m' :
  stop_step m m' → uploads_ended m → uploads_registered m → uploads_registered m'.
Proof.
  intros [l popitem_order r l' <- _ Hstop <-] Hended Hinv t k' Ht' Hd'.
  destruct (stop_frame _ _ _ _ Hstop) as (_ & Hts).
  assert (Hk : ∃ k, tasks (manager l) !! t = Some k ∧ Task.done k = false
                 ∧ Task.coro k' = Task.coro k
                 ∧ Task.done_callbacks k' = Task.done_callbacks k).
  { destruct (Hts t) as [E|E]; rewrite Ht' in E.
    - exists k'. by split_and!.
    - destruct (tasks (manager l) !! t) as [k|]; [|done]. injection E as ->.
      exists k. by split_and!. }
  destruct Hk as (k & Hk & Hd & -> & ->).
  pose proof (Hinv t k Hk Hd) as H. pose proof (Hended t k Hk Hd) as Hnot.
  by destruct (Task.coro k).
Qed.

Lemma orderly_step_keeps_uploads_registered env m m' :
  orderly_step env m m' → uploads_registered m → uploads_registered m'.
Proof.
  intros [H|[Hended H]].
  - by eapply method_step_keeps_uploads_registered.
  - by apply stop_step_keeps_uploads_registered.
Qed.

Lemma reachable_uploads_registered env cfg nd draws m :
  rtc (orderly_step env) (__init__ cfg nd draws) m → uploads_registered m.
Proof.
  intros H. revert m H. apply rtc_ind_r.
  - apply uploads_registered_init.
  - intros y z _ Hstep Hy. by eapply orderly_step_keeps_uploads_registered.
Qed.


Lemma registered_reachable env cfg :
  rtc (orderly_step env) (__init__ cfg None []) (Sample.registered cfg).
Proof.
  eapply rtc_l; [left; eapply (step_new_stream _ _ _ Sample.stream_A); reflexivity|].
  eapply rtc_l; [left; eapply (step_add _ _ _ 1); reflexivity|].
  apply rtc_refl.
Qed.



(** ** path_or_none, further *)

(** Extra X1.  [path_or_none] returns [None] only for a missing or empty
    value, and a path it returns is never empty: for a stored value that is
    not empty it either raises or yields a non-empty text. *)
Theorem path_or_none_none_only_when_absent (p : option string) :
  (path_or_none p = Ok None ↔ p = None ∨ p = Some "")
  ∧ (∀ t, path_or_none p = Ok (Some t) → t ≠ "" ∧ p ≠ None ∧ p ≠ Some "").
Proof.
  split.
  - split.
    + unfold path_or_none. destruct p as [s|]; [|by left]. intros H. right.
      destruct s as [|a s]; [done|]. exfalso. simpl in H.
      destruct (Hex.unhexlify (String a s)); [|done]. by destruct (Utf8.decode _).
    + by intros [->| ->].
  - intros t H. split_and!.
    + apply path_or_none_truthy in H. by destruct t.
    + by intros ->.
    + by intros ->.
Qed.

Lemma path_or_none_none_only_when_absent_witness :
  path_or_none (Some "2f646c") = Ok (Some "/dl")
  ∧ "/dl" ≠ "" ∧ Some "2f646c" ≠ None ∧ Some "2f646c" ≠ Some "".
Proof.
  split; [reflexivity|].
  exact (proj2 (path_or_none_none_only_when_absent (Some "2f646c")) "/dl" eq_refl).
Defined.

Lemma digit_hex_digit n : (n < 16)%N → Hex.digit (hex_digit n) = Some n.
Proof.
  intros H.
  assert (n ∈ [0;1;2;3;4;5;6;7;8;9;10;11;12;13;14;15]%N) as Hin.
  { repeat (rewrite elem_of_cons). rewrite elem_of_nil. lia. }
  repeat (apply elem_of_cons in Hin as [->|Hin]; [reflexivity|]).
  by apply elem_of_nil in Hin.
Qed.

Lemma is_ascii_hex_digit n : (n < 16)%N → Hex.is_ascii (hex_digit n) = true.
Proof.
  intros H.
  assert (n ∈ [0;1;2;3;4;5;6;7;8;9;10;11;12;13;14;15]%N) as Hin.
  { repeat (rewrite elem_of_cons). rewrite elem_of_nil. lia. }
  repeat (apply elem_of_cons in Hin as [->|Hin]; [reflexivity|]).
  by apply elem_of_nil in Hin.
Qed.

Lemma unhexlify_hexlify bs :
  Forall (λ b, (b < 256)%N) bs → Hex.unhexlify (hexlify bs) = Ok bs.
Proof.
  intros Hb.
  assert (H16 : ∀ b, (b < 256)%N → (b / 16 < 16)%N ∧ (b mod 16 < 16)%N).
  { intros b Hlt. split.
    - apply N.Div0.div_lt_upper_bound. lia.
    - apply N.mod_lt. lia. }
  assert (Hascii : Hex.all_ascii (hexlify bs) = true).
  { induction Hb as [|b bs Hlt _ IH]; [done|]. cbn [hexlify Hex.all_ascii].
    destruct (H16 b Hlt) as [H1 H2].
    by rewrite (is_ascii_hex_digit _ H1), (is_ascii_hex_digit _ H2), IH. }
  assert (Heven : Nat.odd (String.length (hexlify bs)) = false).
  { clear. induction bs as [|b bs IH]; [done|]. simpl String.length.
    rewrite Nat.odd_succ, Nat.even_succ. exact IH. }
  assert (Hpairs : Hex.pairs (hexlify bs) = Some bs).
  { clear Hascii Heven.
    induction Hb as [|b bs Hlt _ IH]; [done|]. cbn [hexlify Hex.pairs].
    destruct (H16 b Hlt) as [H1 H2].
    rewrite (digit_hex_digit _ H1), (digit_hex_digit _ H2), IH.
    assert (16 * (b / 16) + b mod 16 = b)%N as ->; [|done].
    symmetry. apply N.div_mod. lia. }
  unfold Hex.unhexlify. by rewrite Hascii, Heven, Hpairs.
Qed.

Lemma text_of_bytes_of_text t : Utf8.text_of_bytes (bytes_of_text t) = t.
Proof.
  unfold Utf8.text_of_bytes, bytes_of_text. rewrite map_map.
  rewrite (map_ext _ id), map_id; [apply string_of_list_ascii_of_string|].
  intros a. apply ascii_N_embedding.
Qed.

Lemma bytes_of_text_bounded t : Forall (λ b, (b < 256)%N) (bytes_of_text t).
Proof.
  unfold bytes_of_text. apply Forall_fmap, Forall_forall. intros a _. simpl.
  apply N_ascii_bounded.
Qed.

(** Extra X2.  [path_or_none] undoes the hex encoding of a text: for every
    non-empty text [t] (well-formed UTF-8), the hexadecimal form of its bytes
    is read back as [t]. *)
Theorem path_or_none_hexlify (t : string) :
  t ≠ "" →
  Utf8.valid (bytes_of_text t) = true →
  path_or_none (Some (hexlify (bytes_of_text t))) = Ok (Some t).
Proof.
  intros Hne Hvalid. unfold path_or_none.
  assert (Htruthy : opt_str_truthy (Some (hexlify (bytes_of_text t))) = true).
  { destruct t as [|a t]; [done|]. reflexivity. }
  rewrite Htruthy. simpl.
  rewrite unhexlify_hexlify by apply bytes_of_text_bounded.
  unfold Utf8.decode. rewrite Hvalid. by rewrite text_of_bytes_of_text.
Qed.

Lemma path_or_none_hexlify_witness :
  ("x.mp4" ≠ "" ∧ Utf8.valid (bytes_of_text "x.mp4") = true
   ∧ hexlify (bytes_of_text "x.mp4") = "782e6d7034")
  ∧ path_or_none (Some (hexlify (bytes_of_text "x.mp4"))) = Ok (Some "x.mp4").
Proof.
  split; [split_and!; [discriminate|reflexivity|reflexivity]|].
  apply (path_or_none_hexlify "x.mp4"); [discriminate|reflexivity].
Defined.

(** ** recover_streams, further *)

Lemma comprehension_raises {A B} (f : A → result B) (l : list A) :
  Exists (λ a, is_ok (f a) = false) l → ∃ e, comprehension f l = Raise e.
Proof.
  induction 1 as [a l Ha|a l _ [e IH]]; simpl.
  - destruct (f a) as [b|e]; [done|]. by exists e.
  - destruct (f a) as [b|e']; simpl; [|by exists e'].
    rewrite IH. by exists e.
Qed.

(** Extra X3.  One record whose stored stream name or suggested file name
    does not decode makes [recover_streams] raise before any descriptor is
    reconstructed: nothing is passed to [storage.recover_streams], not even
    for the records that could be restored, and the manager is as before. *)
Theorem recover_streams_undecodable_name_aborts (env : Collaborators)
    (m : StreamManager) (file_infos : list FileInfo.t) :
  Exists (λ file_info, is_ok (recover_stream_args file_info) = false) file_infos →
  ∃ e, recover_streams env file_infos m = (Raise e, m).
Proof.
  intros H. destruct (comprehension_raises _ _ H) as [e He].
  exists e. unfold recover_streams, bind, lift. by rewrite He.
Qed.

Lemma recover_streams_undecodable_name_aborts_witness :
  let env := Sample.collaborators [] in
  let m := __init__ (Sample.configuration [] 1) None [] in
  Exists (λ file_info, is_ok (recover_stream_args file_info) = false)
         [Sample.row_A; row_bad_name]
  ∧ ∃ e, recover_streams env [Sample.row_A; row_bad_name] m = (Raise e, m).
Proof.
  intros env m.
  assert (H : Exists (λ file_info, is_ok (recover_stream_args file_info) = false)
                     [Sample.row_A; row_bad_name]).
  { apply Exists_cons_tl, Exists_cons_hd. reflexivity. }
  split; [exact H|].
  exact (recover_streams_undecodable_name_aborts env m _ H).
Defined.

(** Extra X4.  Whatever the batch and the outcome, [recover_streams] leaves
    the manager as it was, or adds to the log one call of
    [storage.recover_streams] with a restore set that is not empty and the
    configured download directory. *)
Theorem recover_streams_one_storage_call (env : Collaborators) (m : StreamManager)
    (file_infos : list FileInfo.t) :
  let out := recover_streams env file_infos m in
  out.2 = m
  ∨ ∃ entries,
      entries ≠ [] ∧ out.1 = Ok tt
      ∧ out.2 = with_calls (λ l, (l ++ [storage_recover_streams entries
                                          (Config.download_dir (config m))])%list) m.
Proof.
  unfold recover_streams, bind, lift.
  destruct (comprehension recover_stream_args file_infos) as [coros|e]; [|by left].
  assert (H : ∀ coros acc, ∃ out, gather_recover_stream env acc coros m = (Ok out, m)).
  { clear. induction coros as [|c coros IH]; intros acc; simpl; [by eexists|].
    unfold bind, recover_stream.
    destruct c as [[[[[sd sh] sn] sf] ky] fee].
    destruct (recover env _ _ _ _ _ _); unfold ret; apply IH. }
  destruct (H coros []) as [out ->].
  destruct out as [|entry out]; [by left|]. right.
  exists (entry :: out). split; [done|]. by split.
Qed.

(** ** initialize_from_database, further *)

Lemma initialize_from_database_empty env m :
  get_all_lbry_files env = [] →
  initialize_from_database env m
  = (Ok tt, with_calls (λ l, (l ++ [update_manually_removed_files_since_last_run])%list) m).
Proof. intros H. unfold initialize_from_database. by rewrite H. Qed.

(** Extra X5.  [initialize_from_database] returns normally exactly when the
    database holds no record; whether it returns or raises, the registry, the
    objects, the tasks, the registry of uploads and [resume_saving_task] are
    as before. *)
Theorem initialize_from_database_returns_iff_empty (env : Collaborators)
    (m : StreamManager) :
  let out := initialize_from_database env m in
  (out.1 = Ok tt ↔ get_all_lbry_files env = [])
  ∧ _sources out.2 = _sources m
  ∧ objects out.2 = objects m
  ∧ tasks out.2 = tasks m
  ∧ running_reflector_uploads out.2 = running_reflector_uploads m
  ∧ resume_saving_task out.2 = resume_saving_task m.
Proof.
  destruct (get_all_lbry_files env) as [|file_info rest] eqn:Hfiles.
  - rewrite (initialize_from_database_empty env m Hfiles). simpl. by split_and!.
  - destruct (initialize_from_database_raises env m)
      as (e & m1 & -> & H1 & H2 & H3 & H4 & H5); [by rewrite Hfiles|].
    simpl. by split_and!.
Qed.

(** Extra X6.  With a database that holds at least one record, stored names
    that decode and a first record whose paths decode, the unverified records
    are still recovered, their restore set goes to [storage.recover_streams],
    and only then does [initialize_from_database] raise [TypeError], at the
    first call of [_load_stream]. *)
Theorem initialize_from_database_recovers_then_raises (env : Collaborators)
    (m : StreamManager) (file_info : FileInfo.t) (rest : list FileInfo.t) :
  get_all_lbry_files env = file_info :: rest →
  let to_recover :=
    List.filter (λ fi, negb (is_blob_verified env (FileInfo.sd_hash fi)))
                (file_info :: rest) in
  Forall (λ fi, is_ok (recover_stream_args fi) = true) to_recover →
  is_ok (path_or_none (FileInfo.file_name file_info)) = true →
  is_ok (path_or_none (FileInfo.download_directory file_info)) = true →
  initialize_from_database env m
  = (Raise (TypeError "_load_stream() got a wrong number of positional arguments"),
     with_calls (λ l,
       (l ++ update_manually_removed_files_since_last_run
          :: match omap (restore_entry_spec env) to_recover with
             | [] => []
             | _ :: _ =>
                 [storage_recover_streams (omap (restore_entry_spec env) to_recover)
                    (Config.download_dir (config m))]
             end)%list) m).
Proof.
  intros Hfiles to_recover Hnames Hfn Hdd.
  unfold initialize_from_database. rewrite Hfiles. fold to_recover.
  unfold bind at 1. unfold record_call at 1, modify at 1.
  set (m0 := with_calls _ m).
  assert (Hrec : when (nonempty to_recover) (recover_streams env to_recover) m0
    = (Ok tt, with_calls (λ l,
         (l ++ match omap (restore_entry_spec env) to_recover with
               | [] => []
               | _ :: _ =>
                   [storage_recover_streams (omap (restore_entry_spec env) to_recover)
                      (Config.download_dir (config m))]
               end)%list) m0)).
  { unfold when. destruct to_recover as [|fi frest] eqn:E.
    - simpl. unfold ret. f_equal. subst m0. unfold with_calls. simpl.
      by rewrite app_nil_r.
    - cbn [nonempty]. destruct (comprehension_ok _ _ Hnames) as [coros Hc].
      unfold recover_streams, bind, lift. rewrite Hc.
      rewrite (gather_recover_stream_spec env m0 _ coros [] Hc).
      cbn [app]. destruct (omap _ _) as [|entry entries].
      + unfold ret. f_equal. subst m0. unfold with_calls. simpl. by rewrite app_nil_r.
      + reflexivity. }
  unfold bind at 1. rewrite Hrec. unfold bind at 1.
  cbn [start_files]. unfold bind at 1, lift at 1.
  destruct (path_or_none (FileInfo.file_name file_info)) as [fn|]; [|done].
  unfold bind at 1, lift at 1.
  destruct (path_or_none (FileInfo.download_directory file_info)) as [dd|]; [|done].
  unfold bind at 1, lift at 1. rewrite _load_stream_call_raises.
  f_equal. subst m0. unfold with_calls. simpl. f_equal.
  by rewrite <- app_assoc.
Qed.

Lemma initialize_from_database_recovers_then_raises_witness :
  let unverified :=
    {| is_blob_verified := λ _, false;
       get_stream_descriptor := get_stream_descriptor (Sample.collaborators []);
       get_blobs_for_stream := get_blobs_for_stream (Sample.collaborators []);
       recover := recover (Sample.collaborators []);
       get_all_lbry_files := [Sample.row_A; Sample.row_B];
       get_streams_to_re_reflect := [];
       get_content_claim := λ _, None;
       blobs_completed := λ _, false;
       upload_completes := λ _, false |} in
  let m := __init__ (Sample.configuration [] 1) None [] in
  calls (initialize_from_database unverified m).2
  = [update_manually_removed_files_since_last_run;
     storage_recover_streams [(Sample.descriptor_A, {| of_hash := "A" |}, None)] "/dl"].
Proof.
  intros unverified m.
  rewrite (initialize_from_database_recovers_then_raises unverified m
             Sample.row_A [Sample.row_B] eq_refl);
    [reflexivity|repeat constructor|reflexivity|reflexivity].
Defined.

(** ** _load_stream, further *)

(** Extra X7.  Whatever its arguments, the body of [_load_stream] leaves the
    registry, the callback table, the tasks and the registry of uploads as
    they were.  It returns normally only when the descriptor of a [str] hash
    is invalid, having logged one warning and nothing else; with a descriptor
    that loads it stops at the name [fully_reflected], after the stream
    object is built and before [add]. *)
Theorem load_stream_body_never_registers (env : Collaborators)
    (rowid sd_hash file_name download_directory status claim content_fee added_on : pyval)
    (m : StreamManager) :
  let out := _load_stream_body env rowid sd_hash file_name download_directory status
               claim content_fee added_on m in
  _sources out.2 = _sources m
  ∧ content_claim_callbacks out.2 = content_claim_callbacks m
  ∧ tasks out.2 = tasks m
  ∧ running_reflector_uploads out.2 = running_reflector_uploads m
  ∧ (out.1 = Ok tt ↔
     ∃ h, sd_hash = PStr h ∧ get_stream_descriptor env h = None)
  ∧ (∀ h, sd_hash = PStr h → get_stream_descriptor env h = None →
       out = (Ok tt, with_calls (λ l, (l ++ [log_warning sd_hash h])%list) m))
  ∧ (∀ h d, sd_hash = PStr h → get_stream_descriptor env h = Some d →
       out.1 = Raise (NameError "fully_reflected")
       ∧ calls out.2 = calls m
       ∧ objects out.2
         = <[fresh_key (objects m) :=
               new_ManagedStream (StreamDescriptor.sd_hash d) download_directory
                 file_name status claim content_fee rowid d added_on]> (objects m)).
Proof.
  unfold _load_stream_body, blob_manager_get_stream_descriptor.
  unfold bind, attempt, raise, ret, record_call, modify, alloc, load_global.
  destruct sd_hash as [| | |h| | |];
    try (simpl; split_and!; try done; [split; [done|by intros (h & ? & _)]]).
  destruct (get_stream_descriptor env h) as [d|] eqn:Hd; simpl.
  - split_and!; try done.
    + split; [done|]. intros (h' & [= <-] & H). congruence.
    + intros h' [= <-] H. congruence.
    + intros h' d' [= <-] H. rewrite Hd in H. by injection H as <-.
  - split_and!; try done.
    + split; [|done]. intros _. by exists h.
    + intros h' [= <-] _. done.
    + intros h' d' [= <-] H. congruence.
Qed.

Lemma load_stream_body_never_registers_witness :
  let env := Sample.collaborators [] in
  let m := __init__ (Sample.configuration [] 1) None [] in
  (get_stream_descriptor env "B" = None
   ∧ get_stream_descriptor env "A" = Some Sample.descriptor_A)
  ∧ _load_stream_body env (PInt 2) (PStr "B") PNone PNone (PStr "stopped") PNone PNone
      PNone m
    = (Ok tt, with_calls (λ l, (l ++ [log_warning (PStr "B") "B"])%list) m)
  ∧ (_load_stream_body env (PInt 1) (PStr "A") PNone PNone (PStr "running") PNone PNone
       PNone m).1
    = Raise (NameError "fully_reflected").
Proof.
  intros env m. split; [by split|]. split.
  - exact (proj1 (proj2 (proj2 (proj2 (proj2 (proj2
      (load_stream_body_never_registers env (PInt 2) (PStr "B") PNone PNone
         (PStr "stopped") PNone PNone PNone m)))))) "B" eq_refl eq_refl).
  - exact (proj1 (proj2 (proj2 (proj2 (proj2 (proj2 (proj2
      (load_stream_body_never_registers env (PInt 1) (PStr "A") PNone PNone
         (PStr "running") PNone PNone PNone m)))))) "A" Sample.descriptor_A
      eq_refl eq_refl)).
Defined.

(** ** reflect_stream, further *)

Lemma server_given_choice server port :
  negb (opt_str_truthy server) || negb (opt_int_truthy port) = negb (server_given server port).
Proof. unfold server_given. by destruct (opt_str_truthy _), (opt_int_truthy _). Qed.

Lemma reflect_stream_raises_index_error m stream server port :
  server_given server port = false →
  Config.reflector_servers (config m) = [] →
  reflect_stream stream server port m
  = (Raise (IndexError "Cannot choose from an empty sequence"), m).
Proof.
  intros Hg Hs. unfold reflect_stream. unfold bind at 1, get at 1. unfold bind at 1.
  rewrite server_given_choice, Hg. simpl. unfold random_choice. by rewrite Hs.
Qed.

(** Extra X8.  Without both a server and a port, and with no reflector
    configured, [reflect_stream] raises [IndexError] and leaves the manager as
    it was, whichever stream it is given and whether or not an upload of it is
    registered. *)
Theorem reflect_stream_without_reflector (m : StreamManager) (stream : ref)
    (server : option string) (port : option Z) :
  server_given server port = false →
  Config.reflector_servers (config m) = [] →
  reflect_stream stream server port m
  = (Raise (IndexError "Cannot choose from an empty sequence"), m).
Proof. apply reflect_stream_raises_index_error. Qed.

Lemma reflect_stream_without_reflector_witness :
  let m := Sample.registered (Sample.configuration [] 1) in
  (server_given (Some "reflector") None = false
   ∧ Config.reflector_servers (config m) = [])
  ∧ reflect_stream 1 (Some "reflector") None m
    = (Raise (IndexError "Cannot choose from an empty sequence"), m).
Proof.
  intros m. split; [by split|].
  exact (reflect_stream_without_reflector m 1 (Some "reflector") None eq_refl eq_refl).
Defined.

Lemma chosen_server_known m server port :
  server_known m server port →
  if server_given server port
  then chosen_server m server port = (default "" server, default 0%Z port)
  else chosen_server m server port ∈ Config.reflector_servers (config m).
Proof.
  intros Hk. unfold chosen_server. rewrite server_given_choice.
  destruct (server_given server port) eqn:Hg; [done|]. simpl.
  destruct Hk as [Hk|Hk]; [unfold server_given in Hg; congruence|].
  apply list_elem_of_In, nth_In.
  apply Nat.mod_upper_bound. by destruct (Config.reflector_servers (config m)).
Qed.

(** Extra X9.  When [reflect_stream] starts an upload, the task it returns
    is fresh and uploads to the server and port of the call if both are
    given, the random draws being untouched; otherwise to a member of
    [config.reflector_servers], a server given without a port being ignored,
    and one draw is used. *)
Theorem reflect_stream_uploads_to (m m' : StreamManager) (stream : ref)
    (s : ManagedStream.t) (server : option string) (port : option Z) (task : task_id) :
  objects m !! stream = Some s →
  running_reflector_uploads m !! ManagedStream.sd_hash s = None →
  reflect_stream stream server port m = (Ok task, m') →
  ∃ sp,
    tasks m !! task = None
    ∧ tasks m' = <[task := new_upload_task stream sp]> (tasks m)
    ∧ calls m' = (calls m ++ [loop_create_task task
                                (upload_to_reflector stream sp.1 sp.2)])%list
    ∧ if server_given server port
      then sp = (default "" server, default 0%Z port)
           ∧ random_draws m' = random_draws m
      else sp ∈ Config.reflector_servers (config m)
           ∧ random_draws m' = tl (random_draws m).
Proof.
  intros Hs Hr Hrun.
  assert (Hk : server_known m server port).
  { destruct (server_given server port) eqn:Hg; [by left|]. right. intros Hnil.
    by rewrite (reflect_stream_raises_index_error m stream server port Hg Hnil) in Hrun. }
  rewrite (reflect_stream_new m stream server port s Hs Hk Hr) in Hrun.
  injection Hrun as <- <-.
  destruct (after_choice_fields m server port) as (_ & _ & _ & _ & Et & Ec).
  exists (chosen_server m server port). split_and!.
  - apply fresh_key_fresh.
  - unfold upload_started. simpl. by rewrite Et.
  - unfold upload_started. simpl. by rewrite Et, Ec.
  - pose proof (chosen_server_known m server port Hk) as Hch.
    unfold upload_started, after_choice. simpl. rewrite server_given_choice.
    destruct (server_given server port); simpl; by split.
Qed.

Lemma reflect_stream_uploads_to_witness :
  let m := Sample.registered (Sample.configuration [("r1", 5566%Z); ("r2", 5567%Z)] 1) in
  let out := reflect_stream 1 (Some "mirror") None m in
  (objects m !! 1 = Some Sample.stream_A
   ∧ running_reflector_uploads m !! "A" = None
   ∧ out.1 = Ok 1)
  ∧ ∃ sp, tasks out.2 = <[1 := new_upload_task 1 sp]> (tasks m)
          ∧ sp ∈ [("r1", 5566%Z); ("r2", 5567%Z)].
Proof.
  intros m out. split; [by split_and!|].
  destruct (reflect_stream_uploads_to m out.2 1 Sample.stream_A (Some "mirror") None 1
              eq_refl eq_refl eq_refl) as (sp & _ & Ht & _ & Hsp & _).
  exists sp. by split.
Defined.

(** ** delete_stream, further *)

(** What [delete_stream] does to the manager besides the calls it logs. *)
Lemma delete_stream_effect stream delete_file m s :
  objects m !! stream = Some s →
  ∃ m', delete_stream stream delete_file m = (Ok tt, m')
    ∧ _sources m' = delete (ManagedStream.sd_hash s) (_sources m)
    ∧ tasks m' = match running_reflector_uploads m !! ManagedStream.sd_hash s with
                 | Some t => alter request_cancel t (tasks m)
                 | None => tasks m
                 end
    ∧ running_reflector_uploads m' = running_reflector_uploads m
    ∧ objects m' = objects m
    ∧ content_claim_callbacks m' = content_claim_callbacks m
    ∧ random_draws m' = random_draws m
    ∧ config m' = config m.
Proof.
  intros Hs.
  unfold delete_stream, delete_stream_until_await, streams, deref, cancel,
    record_call, bind, get, modify, when, ret, dict_in.
  rewrite Hs.
  destruct (running_reflector_uploads m !! ManagedStream.sd_hash s) as [t0|]; simpl;
    destruct (_sources m !! ManagedStream.sd_hash s) eqn:E; simpl; rewrite Hs;
    eexists; (split; [reflexivity|]); simpl; split_and!; try done;
    by rewrite delete_id.
Qed.

(** ** create_stream *)

Section CreateStream.

Variable ManagedStream_create :
  string → option string → option (list string) → result ManagedStream.t.

Lemma create_stream_steps file_path key iv_generator m s :
  ManagedStream_create file_path key iv_generator = Ok s →
  create_stream ManagedStream_create file_path key iv_generator m
  = if reflection_configured m
    then match reflect_stream (fresh_key (objects m)) None None (created m s) with
         | (Ok _, m') => (Ok (fresh_key (objects m)), m')
         | (Raise e, m') => (Raise e, m')
         end
    else (Ok (fresh_key (objects m)), created m s).
Proof.
  intros Hc. unfold create_stream, bind, lift, alloc, modify, get, ret.
  rewrite Hc. simpl. fold (reflection_configured m). unfold created.
  destruct (reflection_configured m); [|done].
  by destruct (reflect_stream _ None None _) as [[t|e] m'].
Qed.

Lemma created_object m s : objects (created m s) !! fresh_key (objects m) = Some s.
Proof. unfold created. simpl. apply lookup_insert_eq. Qed.

Lemma reflection_configured_server_known m s :
  reflection_configured m = true → server_known (created m s) None None.
Proof.
  unfold reflection_configured. intros H. apply andb_true_iff in H as [_ H].
  right. simpl. by destruct (Config.reflector_servers (config m)).
Qed.

(** Extra X10.  Once [ManagedStream.create] has returned a stream,
    [create_stream] cannot fail: it returns a new object holding that stream,
    registered under its manifest hash in place of whatever was registered
    there, with its callback installed under its stream hash; an exception of
    [ManagedStream.create] is passed on with the manager untouched. *)
Theorem create_stream_registers (file_path : string) (key : option string)
    (iv_generator : option (list string)) (m : StreamManager) :
  match ManagedStream_create file_path key iv_generator with
  | Raise e =>
      create_stream ManagedStream_create file_path key iv_generator m = (Raise e, m)
  | Ok s =>
      ∃ m', create_stream ManagedStream_create file_path key iv_generator m
            = (Ok (fresh_key (objects m)), m')
        ∧ objects m !! fresh_key (objects m) = None
        ∧ objects m' = <[fresh_key (objects m) := s]> (objects m)
        ∧ _sources m' = <[ManagedStream.sd_hash s := fresh_key (objects m)]> (_sources m)
        ∧ content_claim_callbacks m'
          = <[ManagedStream.stream_hash s := fresh_key (objects m)]>
              (content_claim_callbacks m)
  end.
Proof.
  destruct (ManagedStream_create file_path key iv_generator) as [s|e] eqn:Hc.
  2:{ unfold create_stream, bind, lift. by rewrite Hc. }
  rewrite (create_stream_steps _ _ _ m s Hc).
  destruct (reflection_configured m) eqn:Hcfg.
  - pose proof (reflection_configured_server_known m s Hcfg) as Hk.
    pose proof (created_object m s) as Ho.
    destruct (after_choice_fields (created m s) None None)
      as (E1 & E2 & E3 & E4 & E5 & E6).
    destruct (running_reflector_uploads (created m s) !! ManagedStream.sd_hash s)
      as [t|] eqn:Hr.
    + rewrite (reflect_stream_existing _ _ _ _ s t Ho Hk Hr).
      eexists. split; [reflexivity|]. rewrite E2, E4.
      split_and!; try done. apply fresh_key_fresh.
    + rewrite (reflect_stream_new _ _ _ _ s Ho Hk Hr).
      eexists. split; [reflexivity|]. unfold upload_started. simpl.
      split_and!; try done. apply fresh_key_fresh.
  - eexists. split; [reflexivity|]. split_and!; try done. apply fresh_key_fresh.
Qed.

Lemma create_stream_upload (file_path : string) (key : option string)
    (iv_generator : option (list string)) (m : StreamManager) (s : ManagedStream.t) :
  ManagedStream_create file_path key iv_generator = Ok s →
  let out := create_stream ManagedStream_create file_path key iv_generator m in
  let stream := fresh_key (objects m) in
  let sd := ManagedStream.sd_hash s in
  if reflection_configured m && negb (dict_in sd (running_reflector_uploads m))
  then ∃ sp,
         sp ∈ Config.reflector_servers (config m)
         ∧ tasks out.2 = <[fresh_key (tasks m) := new_upload_task stream sp]> (tasks m)
         ∧ running_reflector_uploads out.2
           = <[sd := fresh_key (tasks m)]> (running_reflector_uploads m)
  else tasks out.2 = tasks m
       ∧ running_reflector_uploads out.2 = running_reflector_uploads m.
Proof.
  intros Hc out stream sd. subst out.
  rewrite (create_stream_steps _ _ _ m s Hc).
  destruct (reflection_configured m) eqn:Hcfg; [|done].
  pose proof (reflection_configured_server_known m s Hcfg) as Hk.
  pose proof (created_object m s) as Ho.
  destruct (after_choice_fields (created m s) None None)
    as (E1 & E2 & E3 & E4 & E5 & E6).
  unfold dict_in.
  change (running_reflector_uploads m) with (running_reflector_uploads (created m s)).
  destruct (running_reflector_uploads (created m s) !! sd) as [t|] eqn:Hr; simpl.
  - rewrite (reflect_stream_existing _ _ _ _ s t Ho Hk Hr). by simpl.
  - rewrite (reflect_stream_new _ _ _ _ s Ho Hk Hr). simpl.
    exists (chosen_server (created m s) None None). split_and!.
    + exact (chosen_server_known (created m s) None None Hk).
    + unfold upload_started. simpl. by rewrite ?E5.
    + unfold upload_started. simpl. by rewrite ?E3, ?E5.
Qed.

(** Extra X11.  [create_stream] starts an upload exactly when reflection is
    enabled, a reflector is configured and no upload is registered for the
    new stream's manifest hash: the upload is then a fresh task for the new
    object, to one of the configured reflectors, registered under that hash;
    in every other case the tasks and the registry of uploads stay as they
    were. *)
Theorem create_stream_reflects (file_path : string) (key : option string)
    (iv_generator : option (list string)) (m : StreamManager) (s : ManagedStream.t) :
  ManagedStream_create file_path key iv_generator = Ok s →
  let out := create_stream ManagedStream_create file_path key iv_generator m in
  let stream := fresh_key (objects m) in
  let sd := ManagedStream.sd_hash s in
  if reflection_configured m && negb (dict_in sd (running_reflector_uploads m))
  then ∃ sp,
         sp ∈ Config.reflector_servers (config m)
         ∧ tasks out.2 = <[fresh_key (tasks m) := new_upload_task stream sp]> (tasks m)
         ∧ running_reflector_uploads out.2
           = <[sd := fresh_key (tasks m)]> (running_reflector_uploads m)
  else tasks out.2 = tasks m
       ∧ running_reflector_uploads out.2 = running_reflector_uploads m.
Proof. apply create_stream_upload. Qed.

Lemma created_keeps_uploads_registered m s :
  uploads_registered m → uploads_registered (created m s).
Proof.
  apply uploads_registered_same_tasks; try done.
  intros r sd. unfold hash_of, created. simpl. intros H.
  rewrite lookup_insert_ne; [done|]. intros <-. by rewrite fresh_key_fresh in H.
Qed.

(** Extra X12.  [create_stream] keeps the uploads registered: if every
    unfinished upload is the task registered under its stream's manifest
    hash, the same holds afterwards, so that no manifest hash has two
    unfinished uploads. *)
Theorem create_stream_keeps_one_upload (file_path : string) (key : option string)
    (iv_generator : option (list string)) (m : StreamManager) :
  uploads_registered m →
  let m' := (create_stream ManagedStream_create file_path key iv_generator m).2 in
  uploads_registered m'
  ∧ ∀ sd t1 t2, in_flight m' sd t1 → in_flight m' sd t2 → t1 = t2.
Proof.
  intros Hinv m'.
  assert (Hinv' : uploads_registered m').
  { subst m'.
    destruct (ManagedStream_create file_path key iv_generator) as [s|e] eqn:Hc.
    2:{ unfold create_stream, bind, lift. by rewrite Hc. }
    rewrite (create_stream_steps _ _ _ m s Hc).
    pose proof (created_keeps_uploads_registered m s Hinv) as H1.
    destruct (reflection_configured m); [|done].
    destruct (reflect_stream _ None None (created m s)) as [[t|e] m1] eqn:E;
      simpl; by eapply reflect_stream_keeps_uploads_registered. }
  split; [done|]. intros sd t1 t2. by apply uploads_registered_one_in_flight.
Qed.

(** Extra X13.  Deleting the stream [create_stream] has just returned takes
    the registry back to what it was before the creation, when the manifest
    hash was not registered then; the upload started for it, if any, is
    asked to cancel and stays registered until it ends; the callback of the
    stream stays in the table. *)
Theorem create_stream_then_delete_stream (file_path : string) (key : option string)
    (iv_generator : option (list string)) (delete_file : bool) (m : StreamManager)
    (s : ManagedStream.t) :
  ManagedStream_create file_path key iv_generator = Ok s →
  _sources m !! ManagedStream.sd_hash s = None →
  running_reflector_uploads m !! ManagedStream.sd_hash s = None →
  let stream := fresh_key (objects m) in
  let sd := ManagedStream.sd_hash s in
  ∃ m1 m2,
    create_stream ManagedStream_create file_path key iv_generator m = (Ok stream, m1)
    ∧ delete_stream stream delete_file m1 = (Ok tt, m2)
    ∧ _sources m2 = _sources m
    ∧ content_claim_callbacks m2 !! ManagedStream.stream_hash s = Some stream
    ∧ if reflection_configured m
      then ∃ sp, running_reflector_uploads m2 !! sd = Some (fresh_key (tasks m))
                 ∧ tasks m2 !! fresh_key (tasks m)
                   = Some (request_cancel (new_upload_task stream sp))
      else tasks m2 = tasks m
           ∧ running_reflector_uploads m2 = running_reflector_uploads m.
Proof.
  intros Hc Hsrc Hrun stream sd.
  pose proof (create_stream_upload file_path key iv_generator m s Hc) as Hup.
  pose proof (create_stream_steps file_path key iv_generator m s Hc) as Hsteps.
  assert (Hcreated : ∃ m1,
    create_stream ManagedStream_create file_path key iv_generator m = (Ok stream, m1)
    ∧ objects m1 !! stream = Some s
    ∧ _sources m1 = <[sd := stream]> (_sources m)
    ∧ content_claim_callbacks m1 !! ManagedStream.stream_hash s = Some stream).
  { rewrite Hsteps. pose proof (created_object m s) as Ho.
    destruct (reflection_configured m) eqn:Hcfg.
    - pose proof (reflection_configured_server_known m s Hcfg) as Hk.
      rewrite (reflect_stream_new _ _ _ _ s Ho Hk Hrun).
      eexists. split; [reflexivity|]. unfold upload_started. simpl.
      split_and!; try done. apply lookup_insert_eq.
    - eexists. split; [reflexivity|]. simpl. split_and!; try done.
      apply lookup_insert_eq. }
  destruct Hcreated as (m1 & E1 & Ho1 & Hs1 & Hcb1). rewrite E1 in Hup. simpl in Hup.
  destruct (delete_stream_effect stream delete_file m1 s Ho1)
    as (m2 & E2 & Hs2 & Ht2 & Hr2 & Ho2 & Hcb2 & _).
  exists m1, m2. split_and!; try done.
  - rewrite Hs2, Hs1. fold sd. rewrite delete_insert_eq. by apply delete_id.
  - by rewrite Hcb2.
  - unfold dict_in in Hup. rewrite Hrun in Hup. subst sd.
    destruct (reflection_configured m); simpl in Hup.
    + destruct Hup as (sp & _ & Ht1 & Hr1). exists sp.
      rewrite Hr2, Ht2, Hr1. rewrite lookup_insert_eq.
      split; [done|]. by rewrite lookup_insert_eq, Ht1, lookup_alter_eq, lookup_insert_eq.
    + destruct Hup as [Ht1 Hr1]. rewrite Hr2, Ht2, Hr1, Ht1.
      by rewrite Hrun.
Qed.

End CreateStream.

Lemma create_stream_reflects_witness :
  let create : string → option string → option (list string) → result ManagedStream.t :=
    λ _ _ _, Ok Sample.stream_A in
  let m := __init__ (Sample.configuration [("reflector", 5566%Z)] 1) None [] in
  let out := create_stream create "/dl/x.mp4" None None m in
  (create "/dl/x.mp4" None None = Ok Sample.stream_A
   ∧ reflection_configured m && negb (dict_in "A" (running_reflector_uploads m)) = true)
  ∧ ∃ sp, sp ∈ [("reflector", 5566%Z)]
          ∧ tasks out.2 = <[1 := new_upload_task 1 sp]> (tasks m)
          ∧ running_reflector_uploads out.2 = <["A" := 1]> (running_reflector_uploads m).
Proof.
  intros create m out. split; [by split|].
  exact (create_stream_reflects create "/dl/x.mp4" None None m Sample.stream_A eq_refl).
Defined.


Lemma create_stream_keeps_one_upload_witness :
  let create : string → option string → option (list string) → result ManagedStream.t :=
    λ _ _ _, Ok Sample.stream_A in
  let m := __init__ (Sample.configuration [("reflector", 5566%Z)] 1) None [] in
  uploads_registered m
  ∧ uploads_registered (create_stream create "/dl/x.mp4" None None m).2.
Proof.
  intros create m.
  assert (H : uploads_registered m) by apply uploads_registered_init.
  split; [exact H|].
  exact (proj1 (create_stream_keeps_one_upload create "/dl/x.mp4" None None m H)).
Defined.

Lemma create_stream_then_delete_stream_witness :
  let create : string → option string → option (list string) → result ManagedStream.t :=
    λ _ _ _, Ok Sample.stream_A in
  let m := __init__ (Sample.configuration [("reflector", 5566%Z)] 1) None [] in
  (create "/dl/x.mp4" None None = Ok Sample.stream_A
   ∧ _sources m !! "A" = None ∧ running_reflector_uploads m !! "A" = None)
  ∧ ∃ m1 m2,
      create_stream create "/dl/x.mp4" None None m = (Ok 1, m1)
      ∧ delete_stream 1 false m1 = (Ok tt, m2)
      ∧ _sources m2 = _sources m
      ∧ content_claim_callbacks m2 !! "hA" = Some 1.
Proof.
  intros create m. split; [by split_and!|].
  destruct (create_stream_then_delete_stream create "/dl/x.mp4" None None false m
              Sample.stream_A eq_refl eq_refl eq_refl)
    as (m1 & m2 & H1 & H2 & H3 & H4 & _).
  exists m1, m2. split_and!; [exact H1|exact H2|exact H3|exact H4].
Defined.

(** ** delete_stream with the tasks and the callbacks *)

(** Extra X14.  When [delete_stream] finds an unfinished upload registered
    for the stream's manifest hash, the upload stays registered until its
    task ends; it then ends without having run, so that no stream is marked
    fully reflected by it whatever the reflector would have answered, and its
    callback takes the entry out of the registry of uploads. *)
Theorem delete_stream_cancels_upload (env : Collaborators) (m : StreamManager)
    (stream : ref) (s : ManagedStream.t) (delete_file : bool) (t : task_id) :
  uploads_registered m →
  objects m !! stream = Some s →
  in_flight m (ManagedStream.sd_hash s) t →
  ∃ m1 m2,
    delete_stream stream delete_file m = (Ok tt, m1)
    ∧ running_reflector_uploads m1 !! ManagedStream.sd_hash s = Some t
    ∧ complete_task env t m1 = (Ok tt, m2)
    ∧ running_reflector_uploads m2
      = delete (ManagedStream.sd_hash s) (running_reflector_uploads m)
    ∧ objects m2 = objects m
    ∧ ∃ k, tasks m2 !! t = Some k ∧ Task.done k = true ∧ Task.exception k = None.
Proof.
  intros Hinv Hs (k & stream0 & srv & p & Ht & Hd & Hc & Hh).
  pose proof (Hinv t k Ht Hd) as Hk. rewrite Hc in Hk.
  destruct Hk as (sd & Hh' & Hreg & Hcb). rewrite Hh in Hh'. injection Hh' as <-.
  destruct (delete_stream_effect stream delete_file m s Hs)
    as (m1 & E1 & _ & Ht1 & Hr1 & Ho1 & _).
  rewrite Hreg in Ht1.
  unfold hash_of in Hh.
  destruct (objects m !! stream0) as [s0|] eqn:Hs0; [|done].
  simpl in Hh. injection Hh as Hh.
  exists m1. unfold complete_task. unfold bind at 1, get at 1.
  rewrite Ht1, lookup_alter_eq, Ht. simpl. rewrite Hd, Hcb.
  set (m1' := with_tasks (alter (finish None) t) m1).
  assert (Ho : objects m1' !! stream0 = Some s0) by (simpl; by rewrite Ho1).
  assert (Hr : running_reflector_uploads m1' !! ManagedStream.sd_hash s0 = Some t).
  { simpl. by rewrite Hr1, Hh. }
  unfold run_done_callbacks, run_done_callback, attempt, deref, bind, ret, get.
  change (modify (with_tasks (alter (finish None) t)) m1) with (Ok tt, m1').
  cbv beta iota. rewrite Ho. cbv beta iota. rewrite Hr. unfold modify.
  eexists. split_and!; try done.
  - by rewrite Hr1.
  - simpl. by rewrite Hr1, Hh.
  - simpl. rewrite Ht1, !lookup_alter_eq, Ht. simpl. eauto.
Qed.

(** Extra X15.  After [delete_stream], the claim callback of the deleted
    stream puts it back into the registry under its manifest hash, with or
    without claim info; it returns normally exactly when the storage has
    claim info for the stream hash. *)
Theorem delete_stream_then_claim_callback (env : Collaborators) (m : StreamManager)
    (stream : ref) (s : ManagedStream.t) (delete_file : bool) :
  objects m !! stream = Some s →
  ∃ m1 m2 r,
    delete_stream stream delete_file m = (Ok tt, m1)
    ∧ _sources m1 !! ManagedStream.sd_hash s = None
    ∧ content_claim_callbacks m1 = content_claim_callbacks m
    ∧ _update_content_claim env stream m1 = (r, m2)
    ∧ _sources m2 = <[ManagedStream.sd_hash s := stream]> (_sources m)
    ∧ (r = Ok tt ↔ is_Some (get_content_claim env (ManagedStream.stream_hash s))).
Proof.
  intros Hs.
  destruct (delete_stream_effect stream delete_file m s Hs)
    as (m1 & E1 & Hs1 & _ & _ & Ho1 & Hcb1 & _).
  assert (Habs : _sources m1 !! ManagedStream.sd_hash s = None).
  { rewrite Hs1. apply lookup_delete_eq. }
  exists m1. unfold _update_content_claim, deref, sources_setdefault, bind, modify, raise.
  rewrite Ho1, Hs, Habs.
  destruct (get_content_claim env (ManagedStream.stream_hash s)) as [ci|];
    eexists _, _; split_and!; try done; simpl;
    rewrite Hs1; apply insert_delete_eq.
Qed.

Lemma delete_stream_cancels_upload_witness :
  let env := Sample.collaborators [] in
  let cfg := Sample.configuration [] 1 in
  let m := (reflect_stream 1 (Some "reflector") (Some 5566%Z) (Sample.registered cfg)).2 in
  (uploads_registered m ∧ objects m !! 1 = Some Sample.stream_A
   ∧ in_flight m (ManagedStream.sd_hash Sample.stream_A) 1)
  ∧ ∃ m1 m2,
      delete_stream 1 false m = (Ok tt, m1)
      ∧ complete_task env 1 m1 = (Ok tt, m2)
      ∧ running_reflector_uploads m2 !! "A" = None
      ∧ objects m2 !! 1 = Some Sample.stream_A.
Proof.
  intros env cfg m.
  assert (Hinv : uploads_registered m).
  { eapply reflect_stream_keeps_uploads_registered; [apply surjective_pairing|].
    eapply reachable_uploads_registered, (registered_reachable env cfg). }
  assert (Hs : objects m !! 1 = Some Sample.stream_A) by reflexivity.
  assert (Hf : in_flight m (ManagedStream.sd_hash Sample.stream_A) 1).
  { eexists _, 1, "reflector", 5566%Z. split_and!; reflexivity. }
  split; [by split_and!|].
  destruct (delete_stream_cancels_upload env m 1 Sample.stream_A false 1 Hinv Hs Hf)
    as (m1 & m2 & H1 & _ & H2 & H3 & H4 & _).
  exists m1, m2. split_and!; [exact H1|exact H2| |].
  - rewrite H3. apply lookup_delete_eq.
  - by rewrite H4.
Defined.

Lemma delete_stream_then_claim_callback_witness :
  let env := Sample.collaborators [] in
  let m := Sample.registered (Sample.configuration [] 1) in
  objects m !! 1 = Some Sample.stream_A
  ∧ ∃ m1 m2,
      delete_stream 1 false m = (Ok tt, m1)
      ∧ _sources m1 !! "A" = None
      ∧ _update_content_claim env 1 m1 = (Ok tt, m2)
      ∧ _sources m2 !! "A" = Some 1.
Proof.
  intros env m. split; [reflexivity|].
  destruct (delete_stream_then_claim_callback env m 1 Sample.stream_A false eq_refl)
    as (m1 & m2 & r & H1 & H2 & _ & H3 & H4 & H5).
  exists m1, m2. split_and!; [exact H1|exact H2| |].
  - rewrite H3. f_equal. apply H5. by eexists.
  - rewrite H4. apply lookup_insert_eq.
Defined.

(** ** stop *)

(** A task asked to cancel ends without running its coroutine; the callback
    of an upload then takes the entry of its stream's hash out of the
    registry, whichever task that entry names. *)
Lemma complete_cancelled_upload env m t k stream0 s0 :
  tasks m !! t = Some k →
  Task.done k = false →
  Task.cancel_requested k = true →
  Task.done_callbacks k = [pop_running_upload stream0] →
  objects m !! stream0 = Some s0 →
  ∃ m', complete_task env t m = (Ok tt, m')
    ∧ running_reflector_uploads m'
      = delete (ManagedStream.sd_hash s0) (running_reflector_uploads m)
    ∧ objects m' = objects m
    ∧ tasks m' = alter (finish None) t (tasks m).
Proof.
  intros Ht Hd Hc Hcb Ho.
  unfold complete_task. unfold bind at 1, get at 1. rewrite Ht, Hd, Hc, Hcb.
  set (m1 := with_tasks (alter (finish None) t) m).
  unfold run_done_callbacks, run_done_callback, attempt, deref, bind, ret, get.
  change (modify (with_tasks (alter (finish None) t)) m) with (Ok tt, m1).
  cbv beta iota.
  assert (Ho1 : objects m1 !! stream0 = Some s0) by done.
  rewrite Ho1. cbv beta iota.
  destruct (running_reflector_uploads m1 !! ManagedStream.sd_hash s0) eqn:Hr.
  - eexists. split_and!; done.
  - eexists. split_and!; try done. simpl in *. by rewrite delete_id.
Qed.

Lemma cancel_unless_done_effect m :
  (∀ t, resume_saving_task m = Some t → is_Some (tasks m !! t)) →
  ∃ m', cancel_unless_done (resume_saving_task m) m = (Ok tt, m')
    ∧ running_reflector_uploads m' = running_reflector_uploads m
    ∧ (∀ t, tasks m' !! t = tasks m !! t
            ∨ tasks m' !! t = request_cancel <$> tasks m !! t)
    ∧ (∀ t, resume_saving_task m ≠ Some t → tasks m' !! t = tasks m !! t)
    ∧ _sources m' = _sources m ∧ objects m' = objects m ∧ config m' = config m
    ∧ content_claim_callbacks m' = content_claim_callbacks m
    ∧ random_draws m' = random_draws m.
Proof.
  intros Hlive. unfold cancel_unless_done.
  destruct (resume_saving_task m) as [t0|] eqn:Hrs.
  - destruct (Hlive t0 eq_refl) as [k Hk].
    unfold bind at 1, get at 1. rewrite Hk.
    destruct (Task.done k).
    + exists m. unfold ret. split_and!; auto.
    + eexists. unfold cancel, record_call, bind, modify. simpl.
      split_and!; try done.
      * intros t. simpl. destruct (decide (t = t0)) as [->|Hne].
        -- right. by rewrite lookup_alter_eq.
        -- left. by rewrite lookup_alter_ne.
      * intros t Hne. simpl. rewrite lookup_alter_ne; [done|]. congruence.
  - exists m. unfold ret. split_and!; auto.
Qed.

Section StopProperties.

Variable popitem_order : gmap string task_id → list (string * task_id).

(** What [stop] does to the manager, when [popitem] hands out the entries of
    the registry of uploads, each once. *)
Lemma stop_effect (l : Lifecycle) :
  popitem_order (running_reflector_uploads (manager l))
    ≡ₚ map_to_list (running_reflector_uploads (manager l)) →
  (∀ t, resume_saving_task (manager l) = Some t → is_Some (tasks (manager l) !! t)) →
  ∃ l', stop popitem_order l = (Ok tt, l')
    ∧ running_reflector_uploads (manager l') = ∅
    ∧ (∀ sd t k, running_reflector_uploads (manager l) !! sd = Some t →
         tasks (manager l) !! t = Some k →
         tasks (manager l') !! t = Some (request_cancel k))
    ∧ (∀ t, (∀ sd, running_reflector_uploads (manager l) !! sd ≠ Some t) →
         resume_saving_task (manager l) ≠ Some t →
         tasks (manager l') !! t = tasks (manager l) !! t)
    ∧ (∀ t, tasks (manager l) !! t = None → tasks (manager l') !! t = None)
    ∧ _sources (manager l') = _sources (manager l)
    ∧ objects (manager l') = objects (manager l)
    ∧ config (manager l') = config (manager l)
    ∧ random_draws (manager l') = random_draws (manager l)
    ∧ content_claim_callbacks (manager l') = content_claim_callbacks (manager l)
    ∧ re_reflect_task l' = cancel_loop_unless_done (re_reflect_task l)
    ∧ update_stream_finished_futs l' = []
    ∧ cancelled_futures l'
      = (cancelled_futures l ++ rev (update_stream_finished_futs l))%list
    ∧ started l' = false.
Proof.
  intros Hperm Hlive. unfold stop.
  destruct (cancel_unless_done_effect (manager l) Hlive)
    as (m1 & E1 & Hr1 & Ht1 & Hf1 & Hs1 & Ho1 & Hc1 & Hcb1 & Hd1).
  rewrite E1, Hr1.
  set (entries := popitem_order (running_reflector_uploads (manager l))) in *.
  destruct (cancel_all_effect entries m1)
    as (m2 & E2 & Hr2 & Ht2 & _ & Hs2 & Ho2 & Hc2 & Hcb2 & _ & Hd2).
  rewrite E2. eexists. split; [reflexivity|]. simpl.
  assert (Hin : ∀ sd t, running_reflector_uploads (manager l) !! sd = Some t ↔
                        (sd, t) ∈ entries).
  { intros sd t. rewrite Hperm. symmetry. apply elem_of_map_to_list. }
  split_and!; try congruence.
  - apply map_empty. intros sd. rewrite Hr2. case_decide as Hsd; [done|].
    rewrite Hr1. destruct (running_reflector_uploads (manager l) !! sd) as [t|] eqn:E;
      [|done].
    exfalso. apply Hsd. apply list_elem_of_fmap. exists (sd, t). split; [done|].
    by apply Hin.
  - intros sd t k Hreg Hk. rewrite Ht2. rewrite decide_True.
    + destruct (Ht1 t) as [->| ->]; by rewrite Hk.
    + apply list_elem_of_fmap. exists (sd, t). split; [done|]. by apply Hin.
  - intros t Hnot Hnr. rewrite Ht2. rewrite decide_False; [by apply Hf1|].
    intros ([sd t'] & -> & Hel)%list_elem_of_fmap. apply Hin in Hel. by apply (Hnot sd).
  - intros t Hnone. rewrite Ht2.
    assert (tasks m1 !! t = None) as ->.
    { destruct (Ht1 t) as [->| ->]; by rewrite Hnone. }
    by case_decide.
Qed.

End StopProperties.

Section StopAndUploads.

Variable popitem_order : gmap string task_id → list (string * task_id).

(** Extra X16.  [stop] empties the registry of uploads and asks every task
    that was registered in it to cancel, in whatever order [popitem] hands
    out the entries; no task is created or dropped, the registered streams
    and the stream objects stay as they are, the pending futures are all
    cancelled, last one first, and the started flag is cleared. *)
Theorem stop_cancels_every_upload (l : Lifecycle) :
  popitem_order (running_reflector_uploads (manager l))
    ≡ₚ map_to_list (running_reflector_uploads (manager l)) →
  (∀ t, resume_saving_task (manager l) = Some t → is_Some (tasks (manager l) !! t)) →
  ∃ l', stop popitem_order l = (Ok tt, l')
    ∧ running_reflector_uploads (manager l') = ∅
    ∧ (∀ sd t k, running_reflector_uploads (manager l) !! sd = Some t →
         tasks (manager l) !! t = Some k →
         ∃ k', tasks (manager l') !! t = Some k'
               ∧ Task.cancel_requested k' = true
               ∧ Task.done k' = Task.done k ∧ Task.coro k' = Task.coro k)
    ∧ (∀ t, (∀ sd, running_reflector_uploads (manager l) !! sd ≠ Some t) →
         resume_saving_task (manager l) ≠ Some t →
         tasks (manager l') !! t = tasks (manager l) !! t)
    ∧ (∀ t, tasks (manager l) !! t = None → tasks (manager l') !! t = None)
    ∧ _sources (manager l') = _sources (manager l)
    ∧ objects (manager l') = objects (manager l)
    ∧ update_stream_finished_futs l' = []
    ∧ cancelled_futures l'
      = (cancelled_futures l ++ rev (update_stream_finished_futs l))%list
    ∧ started l' = false.
Proof.
  intros Hperm Hlive.
  destruct (stop_effect popitem_order l Hperm Hlive)
    as (l' & E & Hr & Hreg & Hfr & Hnew & Hs & Ho & _ & _ & _ & _ & Hf & Hc & Hst).
  exists l'. split_and!; try done.
  intros sd t k H1 H2. exists (request_cancel k). split_and!; try done.
  by apply (Hreg sd).
Qed.

(** Extra X17.  [stop] does not wait for the uploads it cancels.  When
    [reflect_stream] is called for a stream after [stop] and before the
    cancelled upload of that stream has ended, a second task is created: two
    unfinished uploads of one manifest hash exist side by side.  When the
    cancelled one ends, its callback takes the entry of the new one out of
    the registry, although the new upload is still unfinished. *)
Theorem stop_then_reflect_stream_second_upload (env : Collaborators) (l : Lifecycle)
    (stream : ref) (s : ManagedStream.t) (t : task_id)
    (server : option string) (port : option Z) :
  popitem_order (running_reflector_uploads (manager l))
    ≡ₚ map_to_list (running_reflector_uploads (manager l)) →
  (∀ t, resume_saving_task (manager l) = Some t → is_Some (tasks (manager l) !! t)) →
  uploads_registered (manager l) →
  objects (manager l) !! stream = Some s →
  in_flight (manager l) (ManagedStream.sd_hash s) t →
  server_known (manager l) server port →
  ∃ l1 t' m2 m3,
    stop popitem_order l = (Ok tt, l1)
    ∧ reflect_stream stream server port (manager l1) = (Ok t', m2)
    ∧ t' ≠ t
    ∧ in_flight m2 (ManagedStream.sd_hash s) t
    ∧ in_flight m2 (ManagedStream.sd_hash s) t'
    ∧ ¬ uploads_registered m2
    ∧ complete_task env t m2 = (Ok tt, m3)
    ∧ running_reflector_uploads m3 !! ManagedStream.sd_hash s = None
    ∧ in_flight m3 (ManagedStream.sd_hash s) t'.
Proof.
  intros Hperm Hlive Hinv Hs Hfl Hknown.
  pose proof Hfl as (k & stream0 & srv & p & Ht & Hd & Hc & Hh).
  pose proof (Hinv t k Ht Hd) as Hk. rewrite Hc in Hk.
  destruct Hk as (sd & Hh' & Hreg & Hcb). rewrite Hh in Hh'. injection Hh' as <-.
  unfold hash_of in Hh.
  destruct (objects (manager l) !! stream0) as [s0|] eqn:Hs0; [|done].
  simpl in Hh. injection Hh as Hh.
  destruct (stop_effect popitem_order l Hperm Hlive)
    as (l1 & E & Hr1 & Hreg1 & _ & _ & _ & Ho1 & Hc1 & _).
  set (m1 := manager l1) in *.
  assert (Hk1 : tasks m1 !! t = Some (request_cancel k)) by by apply (Hreg1 _ _ _ Hreg).
  assert (Hs1 : objects m1 !! stream = Some s) by by rewrite Ho1.
  assert (Hknown1 : server_known m1 server port).
  { unfold server_known in *. by rewrite Hc1. }
  assert (Hnone : running_reflector_uploads m1 !! ManagedStream.sd_hash s = None).
  { by rewrite Hr1. }
  pose proof (reflect_stream_new m1 stream server port s Hs1 Hknown1 Hnone) as E2.
  destruct (after_choice_fields m1 server port) as (_ & _ & Er & Eo & Et & _).
  set (m0 := after_choice m1 server port) in *.
  set (sp := chosen_server m1 server port) in *.
  set (t' := fresh_key (tasks m1)) in *.
  set (m2 := upload_started m0 stream (ManagedStream.sd_hash s) sp) in *.
  assert (Hne : t' ≠ t).
  { intros Heq. pose proof Hk1 as Hf. rewrite <- Heq in Hf. unfold t' in Hf.
    by rewrite fresh_key_fresh in Hf. }
  assert (Ht2 : tasks m2 = <[t' := new_upload_task stream sp]> (tasks m1)).
  { subst m2. unfold upload_started. simpl. by rewrite Et. }
  assert (Hr2 : running_reflector_uploads m2
                = <[ManagedStream.sd_hash s := t']> (running_reflector_uploads m1)).
  { subst m2. unfold upload_started. simpl. by rewrite Et, Er. }
  assert (Ho2 : objects m2 = objects (manager l)).
  { subst m2. unfold upload_started. simpl. by rewrite Eo. }
  assert (Hfl_t : in_flight m2 (ManagedStream.sd_hash s) t).
  { exists (request_cancel k), stream0, srv, p. split_and!; try done.
    - by rewrite Ht2, lookup_insert_ne.
    - unfold hash_of. by rewrite Ho2, Hs0, <- Hh. }
  assert (Hfl_t' : in_flight m2 (ManagedStream.sd_hash s) t').
  { exists (new_upload_task stream sp), stream, sp.1, sp.2. split_and!; try done.
    - by rewrite Ht2, lookup_insert_eq.
    - unfold hash_of. by rewrite Ho2, Hs. }
  assert (Hk2 : tasks m2 !! t = Some (request_cancel k)).
  { by rewrite Ht2, lookup_insert_ne. }
  assert (Hs02 : objects m2 !! stream0 = Some s0) by by rewrite Ho2.
  destruct (complete_cancelled_upload env m2 t (request_cancel k) stream0 s0
              Hk2 Hd eq_refl Hcb Hs02) as (m3 & E3 & Hr3 & Ho3 & Ht3).
  exists l1, t', m2, m3. split_and!; try done.
  - intros Hinv2. apply Hne. symmetry.
    by apply (uploads_registered_one_in_flight m2 (ManagedStream.sd_hash s)).
  - rewrite Hr3, Hh. apply lookup_delete_eq.
  - exists (new_upload_task stream sp), stream, sp.1, sp.2. split_and!; try done.
    + by rewrite Ht3, lookup_alter_ne, Ht2, lookup_insert_eq.
    + unfold hash_of. by rewrite Ho3, Ho2, Hs.
Qed.

End StopAndUploads.

Lemma stop_cancels_every_upload_witness :
  let cfg := Sample.configuration [] 1 in
  let m := (reflect_stream 1 (Some "reflector") (Some 5566%Z) (Sample.registered cfg)).2 in
  let l := {| manager := m;
              re_reflect_task := Some {| loop_cancel_requested := false;
                                         loop_done := false |};
              update_stream_finished_futs := [1; 2]%nat;
              cancelled_futures := []; started := true |} in
  (map_to_list (running_reflector_uploads (manager l))
     ≡ₚ map_to_list (running_reflector_uploads (manager l))
   ∧ (∀ t, resume_saving_task (manager l) = Some t → is_Some (tasks (manager l) !! t)))
  ∧ ∃ l', stop map_to_list l = (Ok tt, l')
      ∧ running_reflector_uploads (manager l') = ∅
      ∧ cancelled_futures l' = [2; 1]%nat
      ∧ started l' = false.
Proof.
  intros cfg m l.
  assert (Hlive : ∀ t, resume_saving_task (manager l) = Some t →
                       is_Some (tasks (manager l) !! t)) by (intros t H; discriminate H).
  split; [by split|].
  destruct (stop_cancels_every_upload map_to_list l (reflexivity _) Hlive)
    as (l' & H1 & H2 & _ & _ & _ & _ & _ & _ & H3 & H4).
  exists l'. split_and!; [exact H1|exact H2|exact H3|exact H4].
Defined.

Lemma stop_then_reflect_stream_second_upload_witness :
  let env := Sample.collaborators [] in
  let cfg := Sample.configuration [] 1 in
  let m := (reflect_stream 1 (Some "reflector") (Some 5566%Z) (Sample.registered cfg)).2 in
  let l := new_lifecycle m in
  (map_to_list (running_reflector_uploads (manager l))
     ≡ₚ map_to_list (running_reflector_uploads (manager l))
   ∧ (∀ t, resume_saving_task (manager l) = Some t → is_Some (tasks (manager l) !! t))
   ∧ uploads_registered (manager l)
   ∧ objects (manager l) !! 1 = Some Sample.stream_A
   ∧ in_flight (manager l) (ManagedStream.sd_hash Sample.stream_A) 1
   ∧ server_known (manager l) (Some "reflector") (Some 5566%Z))
  ∧ ∃ l1 t' m2 m3,
      stop map_to_list l = (Ok tt, l1)
      ∧ reflect_stream 1 (Some "reflector") (Some 5566%Z) (manager l1) = (Ok t', m2)
      ∧ t' ≠ 1
      ∧ ¬ uploads_registered m2
      ∧ complete_task env 1 m2 = (Ok tt, m3)
      ∧ running_reflector_uploads m3 !! "A" = None
      ∧ in_flight m3 "A" t'.
Proof.
  intros env cfg m l.
  assert (Hlive : ∀ t, resume_saving_task (manager l) = Some t →
                       is_Some (tasks (manager l) !! t)) by (intros t H; discriminate H).
  assert (Hinv : uploads_registered (manager l)).
  { eapply reflect_stream_keeps_uploads_registered; [apply surjective_pairing|].
    eapply reachable_uploads_registered, (registered_reachable env cfg). }
  assert (Hs : objects (manager l) !! 1 = Some Sample.stream_A) by reflexivity.
  assert (Hf : in_flight (manager l) (ManagedStream.sd_hash Sample.stream_A) 1).
  { eexists _, 1, "reflector", 5566%Z. split_and!; reflexivity. }
  assert (Hk : server_known (manager l) (Some "reflector") (Some 5566%Z)) by by left.
  split; [by split_and!|].
  destruct (stop_then_reflect_stream_second_upload map_to_list env l 1 Sample.stream_A 1
              (Some "reflector") (Some 5566%Z) (reflexivity _) Hlive Hinv Hs Hf Hk)
    as (l1 & t' & m2 & m3 & H1 & H2 & H3 & _ & _ & H4 & H5 & H6 & H7).
  exists l1, t', m2, m3.
  split_and!; [exact H1|exact H2|exact H3|exact H4|exact H5|exact H6|exact H7].
Defined.
